(** * reportlab.lib.validators: a shallow embedding and its checked properties

    The module `reportlab/lib/validators.py` defines the class [Validator], its
    subclasses, and the module-level validator instances used by the attribute
    maps.  This development embeds the module as Rocq functions over a small
    model of Python values and proves properties of `test`, `normalize`,
    `normalizeTest`, `__call__` and the constructors.

    Conventions of the model (Python 3).
    - A Python value is a term of [value]: None, booleans, integers, floats
      (binary64), strings (ASCII text), lists, tuples, the classes the module
      defines, and instances of those classes (a class and the instance
      `__dict__`).  Objects of the imported collaborators (colours, shapes,
      dates, compiled patterns) are not values of the model, and neither are
      the instances of `NumericAlign`, a subclass of `str`.
    - Objects have no identity of their own: `is` on instances and classes is
      structural equality, and `in` compares with `==` only.
    - A call returns a value, raises, or leaves the model: [result] is the
      error monad with a third outcome, [Outside], for a step whose answer is
      computed by code the file does not contain (`codecs.lookup`,
      `NormalDate`, `re.compile`, the text form `str` gives to an object).
      Nothing is claimed about a computation that ends in [Outside].
    - Methods are resolved on the class of the receiver, following the single
      inheritance chain (an instance attribute never rebinds a method name).
    - The `import` statements succeed, and output (the trace line of
      `matchesPattern.test`) is not modelled. *)

From Stdlib Require Import ZArith List String Ascii Bool Floats Lia.
Import ListNotations.
Set Warnings "-register-all".
Open Scope string_scope.
Open Scope Z_scope.

(* ================================================================== *)
(** * Results and exceptions *)

Inductive exn : Type :=
| TypeError
| ValueError
| AttributeError
| OverflowError
| NameError
| LookupError.

Inductive result (A : Type) : Type :=
| Ret (a : A)
| Raise (e : exn)
| Outside (what : string).
Arguments Ret {A} a.
Arguments Raise {A} e.
Arguments Outside {A} what.

Definition bind {A B} (m : result A) (k : A -> result B) : result B :=
  match m with
  | Ret a => k a
  | Raise e => Raise e
  | Outside w => Outside w
  end.

Notation "x <- m ;; k" := (bind m (fun x => k))
  (at level 61, m at next level, right associativity).

(** `try: m  except: h` -- the bare handler catches every exception. *)
Definition try_except_all {A} (m : result A) (h : result A) : result A :=
  match m with
  | Raise _ => h
  | _ => m
  end.

(** `try: m  except E: h` for a single exception class [E]. *)
Definition try_except {A} (catches : exn -> bool) (m : result A) (h : result A)
  : result A :=
  match m with
  | Raise e => if catches e then h else m
  | _ => m
  end.

Definition is_ValueError (e : exn) : bool :=
  match e with ValueError => true | _ => false end.

Definition is_LookupError (e : exn) : bool :=
  match e with LookupError => true | _ => false end.

Definition returns {A} (m : result A) : Prop := exists a, m = Ret a.

(* ================================================================== *)
(** * Classes of the module *)

Inductive cls : Type :=
| Validator
| _isAnything
| _isNothing
| _isBoolean
| _isString
| _isCodec
| _isNumber
| _isInt
| _isNumberOrNone
| _isListOfNumbersOrNone
| isNumberInRange
| _isListOfShapes
| _isListOfStringsOrNone
| _isTransform
| _isColor
| _isColorOrNone
| _isNormalDate
| _isValidChild
| _isValidChildOrNone
| _isCallable
| OneOf
| SequenceOf
| EitherOr
| NoneOr
| Auto
| AutoOr
| isInstanceOf
| matchesPattern
| DerivedValue
| Inherit.

Scheme Equality for cls.

(** The base named in each `class C(B):` header; [None] for a class with no
    base in the module. *)
Definition base (c : cls) : option cls :=
  match c with
  | Validator => None
  | _isNumberOrNone => Some _isNumber
  | isNumberInRange => Some _isNumber
  | _isValidChildOrNone => Some _isValidChild
  | AutoOr => Some NoneOr
  | DerivedValue => None
  | Inherit => Some DerivedValue
  | _ => Some Validator
  end.

(** The method resolution order: the class, then its bases in turn.  No
    chain in the module is longer than three classes. *)
Fixpoint ancestors (fuel : nat) (c : cls) : list cls :=
  match fuel with
  | O => []
  | S fuel' =>
      c :: match base c with
           | Some b => ancestors fuel' b
           | None => []
           end
  end.

Definition mro (c : cls) : list cls := ancestors 3 c.

Definition issubclass (c k : cls) : bool :=
  existsb (cls_beq k) (mro c).

(** The names bound by `def` in each class body. *)
Definition defines (c : cls) : list string :=
  match c with
  | Validator => ["__call__"; "__str__"; "normalize"; "normalizeTest"]
  | _isBoolean | _isNumber | _isInt | _isNumberOrNone | _isNormalDate =>
      ["test"; "normalize"]
  | isNumberInRange | OneOf | SequenceOf | EitherOr | NoneOr | Auto
  | isInstanceOf | matchesPattern => ["__init__"; "test"]
  | DerivedValue => ["getValue"]
  | Inherit => ["__repr__"; "getValue"]
  | _ => ["test"]
  end.

(** The class whose body supplies method [m] to an instance of [c]. *)
Definition resolve (c : cls) (m : string) : option cls :=
  find (fun k => existsb (String.eqb m) (defines k)) (mro c).

(* ================================================================== *)
(** * Python values *)

Inductive value : Type :=
| VNone
| VBool (b : bool)
| VInt (n : Z)
| VFloat (f : float)
| VStr (s : string)
| VList (xs : list value)
| VTuple (xs : list value)
| VClass (c : cls)
| VInst (c : cls) (d : list (string * value)).

Definition dict : Type := list (string * value).

Fixpoint lookup (d : dict) (k : string) : option value :=
  match d with
  | [] => None
  | (k', v) :: d' => if String.eqb k k' then Some v else lookup d' k
  end.

(** `obj.name` for a data attribute kept in the instance `__dict__`. *)
Definition getattr (self : value) (name : string) : result value :=
  match self with
  | VInst _ d =>
      match lookup d name with
      | Some v => Ret v
      | None => Raise AttributeError
      end
  | _ => Raise AttributeError
  end.

Definition VTrue : value := VBool true.
Definition VFalse : value := VBool false.

(* ================================================================== *)
(** * Builtins *)

(** ** Truth value, type tests *)

(** `bool(x)`, as `if x:` and `not x` use it. *)
Definition truthy (v : value) : bool :=
  match v with
  | VNone => false
  | VBool b => b
  | VInt n => negb (n =? 0)
  | VFloat f => negb (PrimFloat.eqb f 0%float)
  | VStr s => negb (String.eqb s "")
  | VList xs | VTuple xs => match xs with [] => false | _ => true end
  | VClass _ | VInst _ _ => true
  end.

(** Modelled from the spec: `reportlab.lib.utils.isSeqType` is not part of the
    source file; the spec speaks of "sequence" inputs, taken here as lists and
    tuples. *)
Definition isSeqType (v : value) : bool :=
  match v with
  | VList _ | VTuple _ => true
  | _ => false
  end.

(** Modelled from the spec: `reportlab.lib.utils.isStrType` is not part of the
    source file; the spec says the string validator "accepts native text
    values only". *)
Definition isStrType (v : value) : bool :=
  match v with
  | VStr _ => true
  | _ => false
  end.

Definition is_None (v : value) : bool :=
  match v with VNone => true | _ => false end.

(** `type(x) in (int,bool)`. *)
Definition type_in_int_bool (v : value) : bool :=
  match v with VInt _ | VBool _ => true | _ => false end.

(** `type(x) in _NumberTypes`, with `_NumberTypes = (float,int)`. *)
Definition type_in_NumberTypes (v : value) : bool :=
  match v with VFloat _ | VInt _ => true | _ => false end.

(** `type(x) is int`. *)
Definition type_is_int (v : value) : bool :=
  match v with VInt _ => true | _ => false end.

(** `type(x) is str`. *)
Definition type_is_str (v : value) : bool :=
  match v with VStr _ => true | _ => false end.

(** `len(x)` on the sized values of the model. *)
Definition py_len (v : value) : result Z :=
  match v with
  | VList xs | VTuple xs => Ret (Z.of_nat (List.length xs))
  | VStr s => Ret (Z.of_nat (String.length s))
  | _ => Raise TypeError
  end.

(** ** Numbers *)

(** The numeric tower: `bool` is a subclass of `int`. *)
Inductive num : Type :=
| NInt (n : Z)
| NFloat (f : float).

Definition as_num (v : value) : option num :=
  match v with
  | VBool b => Some (NInt (Z.b2z b))
  | VInt n => Some (NInt n)
  | VFloat f => Some (NFloat f)
  | _ => None
  end.

(** Exact comparison of a float with an integer (Python does not round the
    integer first); [None] when the float is a NaN. *)
Definition float_cmp_Z (f : float) (n : Z) : option comparison :=
  match Prim2SF f with
  | S754_nan => None
  | S754_zero _ => Some (0 ?= n)
  | S754_infinity s => Some (if s then Lt else Gt)
  | S754_finite s m e =>
      let v := if s then Z.neg m else Z.pos m in
      if 0 <=? e then Some (v * 2 ^ e ?= n)
      else Some (v ?= n * 2 ^ (- e))
  end.

Definition num_eqb (a b : num) : bool :=
  match a, b with
  | NInt x, NInt y => x =? y
  | NFloat x, NFloat y => PrimFloat.eqb x y
  | NFloat x, NInt y | NInt y, NFloat x =>
      match float_cmp_Z x y with Some Eq => true | _ => false end
  end.

Definition num_leb (a b : num) : bool :=
  match a, b with
  | NInt x, NInt y => x <=? y
  | NFloat x, NFloat y => PrimFloat.leb x y
  | NFloat x, NInt y =>
      match float_cmp_Z x y with Some (Lt | Eq) => true | _ => false end
  | NInt x, NFloat y =>
      match float_cmp_Z y x with Some (Gt | Eq) => true | _ => false end
  end.

(** `float(n)` for an integer: the nearest binary64, ties to even;
    `OverflowError` when that is beyond the largest finite float. *)
Definition float_of_Z (n : Z) : result float :=
  match binary_normalize prec emax n 0 false with
  | S754_infinity _ => Raise OverflowError
  | sf => Ret (SF2Prim sf)
  end.

(** `int(f)` for a float: truncation towards zero. *)
Definition Z_of_float (f : float) : result Z :=
  match Prim2SF f with
  | S754_nan => Raise ValueError
  | S754_infinity _ => Raise OverflowError
  | S754_zero _ => Ret 0
  | S754_finite s m e =>
      let a := if 0 <=? e then Z.pos m * 2 ^ e else Z.pos m / 2 ^ (- e) in
      Ret (if s then - a else a)
  end.

(** ** Text *)

Definition code (c : ascii) : N := N_of_ascii c.

Definition is_digit (c : ascii) : bool :=
  ((48 <=? code c) && (code c <=? 57))%N.

Definition digit_val (c : ascii) : Z := Z.of_N (code c) - 48.

(** The ASCII characters `str.strip()` removes. *)
Definition is_space (c : ascii) : bool :=
  (((9 <=? code c) && (code c <=? 13)) || ((28 <=? code c) && (code c <=? 32)))%N.

Definition is_underscore (c : ascii) : bool := (code c =? 95)%N.

Definition upper_char (c : ascii) : ascii :=
  if ((97 <=? code c) && (code c <=? 122))%N then ascii_of_N (code c - 32) else c.

Definition lower_char (c : ascii) : ascii :=
  if ((65 <=? code c) && (code c <=? 90))%N then ascii_of_N (code c + 32) else c.

(** `s.upper()`. *)
Fixpoint str_upper (s : string) : string :=
  match s with
  | EmptyString => EmptyString
  | String c s' => String (upper_char c) (str_upper s')
  end.

(** `x.upper()`: only text has the method. *)
Definition py_upper (x : value) : result value :=
  match x with
  | VStr s => Ret (VStr (str_upper s))
  | _ => Raise AttributeError
  end.

Fixpoint lstrip (l : list ascii) : list ascii :=
  match l with
  | c :: l' => if is_space c then lstrip l' else l
  | [] => []
  end.

Definition strip (l : list ascii) : list ascii :=
  rev (lstrip (rev (lstrip l))).

(** A numeric literal may group its digits with single underscores: each
    underscore stands between two digits. *)
Fixpoint underscores_ok (prev : ascii) (l : list ascii) : bool :=
  match l with
  | [] => negb (is_underscore prev)
  | c :: l' =>
      (if is_underscore c then is_digit prev
       else if is_underscore prev then is_digit c
       else true)
      && underscores_ok c l'
  end.

Definition drop_underscores (l : list ascii) : list ascii :=
  filter (fun c => negb (is_underscore c)) l.

Definition parse_sign (l : list ascii) : bool * list ascii :=
  match l with
  | c :: r =>
      if (code c =? 45)%N then (true, r)
      else if (code c =? 43)%N then (false, r)
      else (false, l)
  | [] => (false, l)
  end.

Definition digits_value (l : list ascii) : Z :=
  fold_left (fun acc c => 10 * acc + digit_val c) l 0.

Definition all_digits (l : list ascii) : bool :=
  match l with
  | [] => false
  | _ => forallb is_digit l
  end.

(** The text `int(s)` accepts: blanks, a sign, decimal digits. *)
Definition parse_int (s : string) : option Z :=
  let l := strip (list_ascii_of_string s) in
  if underscores_ok Ascii.zero l then
    let '(neg, body) := parse_sign (drop_underscores l) in
    if all_digits body
    then Some (if neg then - digits_value body else digits_value body)
    else None
  else None.

Fixpoint span_digits (l : list ascii) : list ascii * list ascii :=
  match l with
  | c :: l' =>
      if is_digit c
      then let '(ds, r) := span_digits l' in (c :: ds, r)
      else ([], l)
  | [] => ([], [])
  end.

(** The binary64 nearest to [(-1)^neg * m * 10^e], ties to even. *)
Definition decimal_to_float (neg : bool) (m e : Z) : float :=
  match m with
  | Z.pos p =>
      if 0 <=? e
      then SF2Prim (binary_normalize prec emax
                      (if neg then - (m * 10 ^ e) else m * 10 ^ e) 0 neg)
      else SF2Prim (SFdiv prec emax (S754_finite neg p 0)
                      (S754_finite false (Z.to_pos (10 ^ (- e))) 0))
  | _ => SF2Prim (S754_zero neg)
  end.

Definition text_is (l : list ascii) (s : string) : bool :=
  String.eqb (string_of_list_ascii (map lower_char l)) s.

(** The text `float(s)` accepts: blanks, a sign, then `inf`, `infinity`,
    `nan`, or a decimal numeral with an optional exponent. *)
Definition parse_float (s : string) : option float :=
  let l := strip (list_ascii_of_string s) in
  if underscores_ok Ascii.zero l then
    let '(neg, body) := parse_sign (drop_underscores l) in
    if text_is body "inf" || text_is body "infinity"
    then Some (if neg then neg_infinity else infinity)
    else if text_is body "nan" then Some nan
    else
      let '(ip, r1) := span_digits body in
      let '(fp, r2) :=
        match r1 with
        | c :: r => if (code c =? 46)%N then span_digits r else ([], r1)
        | [] => ([], r1)
        end in
      match (ip ++ fp)%list with
      | [] => None
      | ds =>
          let scale := - Z.of_nat (List.length fp) in
          match r2 with
          | [] => Some (decimal_to_float neg (digits_value ds) scale)
          | c :: r3 =>
              if (code (lower_char c) =? 101)%N then
                let '(eneg, es) := parse_sign r3 in
                if all_digits es
                then Some (decimal_to_float neg (digits_value ds)
                             ((if eneg then - digits_value es
                               else digits_value es) + scale))
                else None
              else None
          end
      end
  else None.

(** `float(x)`. *)
Definition py_float (x : value) : result value :=
  match x with
  | VFloat f => Ret (VFloat f)
  | VInt n => f <- float_of_Z n ;; Ret (VFloat f)
  | VBool b => Ret (VFloat (if b then 1%float else 0%float))
  | VStr s =>
      match parse_float s with
      | Some f => Ret (VFloat f)
      | None => Raise ValueError
      end
  | _ => Raise TypeError
  end.

(** `int(x)`. *)
Definition py_int (x : value) : result value :=
  match x with
  | VInt n => Ret (VInt n)
  | VBool b => Ret (VInt (Z.b2z b))
  | VFloat f => n <- Z_of_float f ;; Ret (VInt n)
  | VStr s =>
      match parse_int s with
      | Some n => Ret (VInt n)
      | None => Raise ValueError
      end
  | _ => Raise TypeError
  end.

(** ** Identity, equality, order, membership *)

(** `a is b`, read structurally. *)
Fixpoint same (a b : value) {struct a} : bool :=
  match a, b with
  | VNone, VNone => true
  | VBool x, VBool y => Bool.eqb x y
  | VInt x, VInt y => x =? y
  | VFloat x, VFloat y => PrimFloat.Leibniz.eqb x y
  | VStr x, VStr y => String.eqb x y
  | VList xs, VList ys | VTuple xs, VTuple ys =>
      (fix all2 (xs ys : list value) : bool :=
         match xs, ys with
         | [], [] => true
         | x :: xs', y :: ys' => same x y && all2 xs' ys'
         | _, _ => false
         end) xs ys
  | VClass c, VClass c' => cls_beq c c'
  | VInst c d, VInst c' d' =>
      cls_beq c c'
      && (fix all2 (d d' : dict) : bool :=
            match d, d' with
            | [], [] => true
            | (k, x) :: r, (k', y) :: r' =>
                String.eqb k k' && same x y && all2 r r'
            | _, _ => false
            end) d d'
  | _, _ => false
  end.

(** `a == b`. *)
Fixpoint py_eq (a b : value) {struct a} : bool :=
  match as_num a, as_num b with
  | Some x, Some y => num_eqb x y
  | _, _ =>
      match a, b with
      | VNone, VNone => true
      | VStr s, VStr t => String.eqb s t
      | VList xs, VList ys | VTuple xs, VTuple ys =>
          (fix all2 (xs ys : list value) : bool :=
             match xs, ys with
             | [], [] => true
             | x :: xs', y :: ys' => py_eq x y && all2 xs' ys'
             | _, _ => false
             end) xs ys
      | VClass _, VClass _ | VInst _ _, VInst _ _ => same a b
      | _, _ => false
      end
  end.

(** `a <= b`: numbers with numbers, text with text, a sequence with a sequence
    of its own kind; anything else is not ordered. *)
Fixpoint py_le (a b : value) {struct a} : result bool :=
  match as_num a, as_num b with
  | Some x, Some y => Ret (num_leb x y)
  | _, _ =>
      match a, b with
      | VStr s, VStr t => Ret (String.leb s t)
      | VList xs, VList ys | VTuple xs, VTuple ys =>
          (fix lex (xs ys : list value) : result bool :=
             match xs, ys with
             | [], _ => Ret true
             | _ :: _, [] => Ret false
             | x :: xs', y :: ys' =>
                 if py_eq x y then lex xs' ys' else py_le x y
             end) xs ys
      | _, _ => Raise TypeError
      end
  end.

Fixpoint substring_of (s t : string) : bool :=
  String.prefix s t
  || match t with
     | String _ t' => substring_of s t'
     | EmptyString => false
     end.

(** `x in c`. *)
Definition py_contains (c x : value) : result bool :=
  match c with
  | VList es | VTuple es => Ret (existsb (py_eq x) es)
  | VStr t =>
      match x with
      | VStr s => Ret (substring_of s t)
      | _ => Raise TypeError
      end
  | _ => Raise TypeError
  end.

(** `x in (0,1)`. *)
Definition in_0_1 (x : value) : bool :=
  py_eq x (VInt 0) || py_eq x (VInt 1).

(* ================================================================== *)
(** * Calls and construction *)

(** ** Binding arguments to parameters *)

(** The parameters of a `def` after `self`: names with their defaults, and
    whether the list ends in `*args` or `**kw`. *)
Record signature : Type := mk_sig {
  params : list (string * option value);
  star_args : bool;
  star_kw : bool
}.

Definition has_key (d : dict) (k : string) : bool :=
  match lookup d k with Some _ => true | None => false end.

(** Positional arguments fill the parameters from the left; a parameter left
    over takes the keyword of its name, else its default. *)
Fixpoint bind_params (ps : list (string * option value)) (args : list value)
  (kw : dict) : result dict :=
  match ps with
  | [] => Ret []
  | (p, dflt) :: ps' =>
      match args with
      | a :: args' =>
          if has_key kw p then Raise TypeError
          else rest <- bind_params ps' args' kw ;; Ret ((p, a) :: rest)
      | [] =>
          v <- match lookup kw p, dflt with
               | Some v, _ => Ret v
               | None, Some v => Ret v
               | None, None => Raise TypeError
               end ;;
          rest <- bind_params ps' [] kw ;; Ret ((p, v) :: rest)
      end
  end.

Record bound_args : Type := mk_bound {
  named : dict;
  extra_args : list value;
  extra_kw : dict
}.

Definition bind_args (sg : signature) (args : list value) (kw : dict)
  : result bound_args :=
  let more := skipn (List.length (params sg)) args in
  let others := filter (fun kv => negb (has_key (map (fun p => (fst p, VNone)) (params sg)) (fst kv))) kw in
  if negb (star_args sg) && negb (match more with [] => true | _ => false end)
  then Raise TypeError
  else if negb (star_kw sg) && negb (match others with [] => true | _ => false end)
  then Raise TypeError
  else
    nm <- bind_params (params sg) args kw ;;
    Ret (mk_bound nm more others).

(** A parameter of the running call. *)
Definition arg (b : bound_args) (name : string) : result value :=
  match lookup (named b) name with
  | Some v => Ret v
  | None => Raise NameError
  end.

(** A `def f(self, x)` called with the positional arguments [args]. *)
Definition call_def2 (f : value -> value -> result value) (args : list value)
  : result value :=
  match args with
  | [a; b] => f a b
  | _ => Raise TypeError
  end.

(** `self.name = v` on the instance `__dict__`. *)
Fixpoint setattr (d : dict) (name : string) (v : value) : dict :=
  match d with
  | [] => [(name, v)]
  | (k, w) :: d' =>
      if String.eqb name k then (k, v) :: d' else (k, w) :: setattr d' name v
  end.

(** `self.__dict__.update(kw)`. *)
Definition dict_update (d kw : dict) : dict :=
  fold_left (fun acc kv => setattr acc (fst kv) (snd kv)) kw d.

(** The elements `for e in x` visits, for the iterable values of the model
    whose elements are values. *)
Definition elements (x : value) : list value :=
  match x with
  | VList xs | VTuple xs => xs
  | _ => []
  end.

(** ** The module namespace *)

(** The names `from types import *` binds. *)
Definition types_names : list string :=
  ["FunctionType"; "LambdaType"; "CodeType"; "MappingProxyType";
   "SimpleNamespace"; "CellType"; "GeneratorType"; "CoroutineType";
   "AsyncGeneratorType"; "MethodType"; "BuiltinFunctionType";
   "BuiltinMethodType"; "WrapperDescriptorType"; "MethodWrapperType";
   "MethodDescriptorType"; "ClassMethodDescriptorType"; "ModuleType";
   "TracebackType"; "FrameType"; "GetSetDescriptorType";
   "MemberDescriptorType"; "new_class"; "resolve_bases"; "prepare_class";
   "DynamicClassAttribute"; "coroutine"; "GenericAlias"; "UnionType";
   "EllipsisType"; "NoneType"; "NotImplementedType"].

(** The names the `import` statements of the file bind. *)
Definition imported_names : list string :=
  ["string"; "sys"; "codecs"] ++ types_names
  ++ ["colors"; "isSeqType"; "isStrType"; "NormalDate"].

(** The names the file binds itself, by assignment or by `class`. *)
Definition defined_names : list string :=
  ["__version__"; "__doc__"; "_NumberTypes";
   "Validator"; "_isAnything"; "_isNothing"; "_isBoolean"; "_isString";
   "_isCodec"; "_isNumber"; "_isInt"; "_isNumberOrNone";
   "_isListOfNumbersOrNone"; "isNumberInRange"; "_isListOfShapes";
   "_isListOfStringsOrNone"; "_isTransform"; "_isColor"; "_isColorOrNone";
   "_isNormalDate"; "_isValidChild"; "_isValidChildOrNone"; "_isCallable";
   "OneOf"; "SequenceOf"; "EitherOr"; "NoneOr"; "Auto"; "AutoOr";
   "isInstanceOf"; "matchesPattern"; "DerivedValue"; "Inherit"; "inherit";
   "NumericAlign";
   "isAuto"; "isBoolean"; "isString"; "isCodec"; "isNumber"; "isInt";
   "isNoneOrInt"; "isNumberOrNone"; "isTextAnchor"; "isListOfNumbers";
   "isListOfNumbersOrNone"; "isListOfShapes"; "isListOfStrings";
   "isListOfStringsOrNone"; "isTransform"; "isColor"; "isListOfColors";
   "isColorOrNone"; "isShape"; "isValidChild"; "isNoneOrShape";
   "isValidChildOrNone"; "isAnything"; "isNothing"; "isXYCoord";
   "isBoxAnchor"; "isNoneOrString"; "isNoneOrListOfNoneOrStrings";
   "isListOfNoneOrString"; "isNoneOrListOfNoneOrNumbers"; "isCallable";
   "isStringOrCallable"; "isStringOrCallableOrNone"; "isStringOrNone";
   "isNormalDate"].

(** The builtin namespace, searched after the module's own. *)
Definition builtin_names : list string :=
  ["abs"; "all"; "any"; "ascii"; "bin"; "bool"; "breakpoint"; "bytearray";
   "bytes"; "callable"; "chr"; "classmethod"; "compile"; "complex";
   "delattr"; "dict"; "dir"; "divmod"; "enumerate"; "eval"; "exec";
   "filter"; "float"; "format"; "frozenset"; "getattr"; "globals";
   "hasattr"; "hash"; "help"; "hex"; "id"; "input"; "int"; "isinstance";
   "issubclass"; "iter"; "len"; "list"; "locals"; "map"; "max";
   "memoryview"; "min"; "next"; "object"; "oct"; "open"; "ord"; "pow";
   "print"; "property"; "range"; "repr"; "reversed"; "round"; "set";
   "setattr"; "slice"; "sorted"; "staticmethod"; "str"; "sum"; "super";
   "tuple"; "type"; "vars"; "zip"; "__import__";
   "None"; "True"; "False"; "Ellipsis"; "NotImplemented";
   "Exception"; "BaseException"; "TypeError"; "ValueError";
   "AttributeError"; "LookupError"; "NameError"; "OverflowError";
   "KeyError"; "IndexError"; "ArithmeticError"; "AssertionError";
   "ImportError"; "OSError"; "RuntimeError"; "StopIteration";
   "SystemExit"; "KeyboardInterrupt"; "UnicodeError"; "ZeroDivisionError"].

(** Reading a global name: the module namespace, then the builtins. *)
Definition load_global (name : string) : result unit :=
  if existsb (String.eqb name) (imported_names ++ defined_names ++ builtin_names)%list
  then Ret tt
  else Raise NameError.

(** ** The `__init__` methods *)

(** Each takes the bound arguments and gives the instance `__dict__` its
    assignments leave behind. *)

Definition isNumberInRange___init__ (a : bound_args) : result dict :=
  mn <- arg a "min" ;;
  mx <- arg a "max" ;;
  Ret (setattr (setattr [] "min" mn) "max" mx).

Definition OneOf___init__ (a : bound_args) : result dict :=
  enum <- arg a "enum" ;;
  let args := extra_args a in
  if isSeqType enum then
    if negb (py_eq (VTuple args) (VTuple []))
    then Raise ValueError
    else Ret (setattr [] "_enum" (VTuple (elements enum ++ args)))
  else Ret (setattr [] "_enum" (VTuple ([enum] ++ args))).

Definition set_name (d : dict) (name : value) : dict :=
  if truthy name then setattr d "_str" name else d.

Definition SequenceOf___init__ (a : bound_args) : result dict :=
  elemTest <- arg a "elemTest" ;;
  name <- arg a "name" ;;
  emptyOK <- arg a "emptyOK" ;;
  NoneOK <- arg a "NoneOK" ;;
  lo <- arg a "lo" ;;
  hi <- arg a "hi" ;;
  let d := setattr [] "_elemTest" elemTest in
  let d := setattr d "_emptyOK" emptyOK in
  let d := setattr d "_NoneOK" NoneOK in
  let d := setattr (setattr d "_lo" lo) "_hi" hi in
  Ret (set_name d name).

Definition EitherOr___init__ (a : bound_args) : result dict :=
  tests <- arg a "tests" ;;
  name <- arg a "name" ;;
  let tests := if negb (isSeqType tests) then VTuple [tests] else tests in
  Ret (set_name (setattr [] "_tests" tests) name).

Definition NoneOr___init__ (a : bound_args) : result dict :=
  elemTest <- arg a "elemTest" ;;
  name <- arg a "name" ;;
  Ret (set_name (setattr [] "_elemTest" elemTest) name).

Definition Auto___init__ (a : bound_args) : result dict :=
  Ret (dict_update [] (extra_kw a)).

Definition isInstanceOf___init__ (a : bound_args) : result dict :=
  klass <- arg a "klass" ;;
  Ret (setattr [] "_klass" klass).

(** `self._pattern = re.compile(pattern)`: the name `re` is read first. *)
Definition matchesPattern___init__ (a : bound_args) : result dict :=
  pattern <- arg a "pattern" ;;
  _ <- load_global "re" ;;
  compiled <- Outside "re.compile" ;;
  Ret (setattr [] "_pattern" compiled).

(** The signature and body of the `__init__` each class body defines. *)
Definition init_of (k : cls) : option (signature * (bound_args -> result dict)) :=
  match k with
  | isNumberInRange =>
      Some (mk_sig [("min", None); ("max", None)] false false,
            isNumberInRange___init__)
  | OneOf => Some (mk_sig [("enum", None)] true false, OneOf___init__)
  | SequenceOf =>
      Some (mk_sig [("elemTest", None); ("name", Some VNone);
                    ("emptyOK", Some (VInt 1)); ("NoneOK", Some (VInt 0));
                    ("lo", Some (VInt 0)); ("hi", Some (VInt 2147483647))]
              false false,
            SequenceOf___init__)
  | EitherOr =>
      Some (mk_sig [("tests", None); ("name", Some VNone)] false false,
            EitherOr___init__)
  | NoneOr =>
      Some (mk_sig [("elemTest", None); ("name", Some VNone)] false false,
            NoneOr___init__)
  | Auto => Some (mk_sig [] false true, Auto___init__)
  | isInstanceOf =>
      Some (mk_sig [("klass", Some VNone)] false false, isInstanceOf___init__)
  | matchesPattern =>
      Some (mk_sig [("pattern", None)] false false, matchesPattern___init__)
  | _ => None
  end.

(** Calling the class [c] with positional arguments [args] and keywords [kw]:
    the `__init__` found along the bases of [c] runs on a fresh instance; a
    class with none accepts no argument. *)
Definition construct (c : cls) (args : list value) (kw : dict) : result value :=
  match resolve c "__init__" with
  | Some k =>
      match init_of k with
      | Some (sg, body) =>
          a <- bind_args sg args kw ;;
          d <- body a ;;
          Ret (VInst c d)
      | None => Raise TypeError
      end
  | None =>
      match args, kw with
      | [], [] => Ret (VInst c [])
      | _, _ => Raise TypeError
      end
  end.

(* ================================================================== *)
(** * The methods of the validator classes *)

Definition class_of (v : value) : option cls :=
  match v with
  | VInst c _ => Some c
  | _ => None
  end.

(** `isinstance(x, k)` for a class [k] of the module. *)
Definition instance_of (x : value) (k : cls) : bool :=
  match x with
  | VInst c _ => issubclass c k
  | _ => false
  end.

(** `isinstance(x, klass)`: [klass] is a class or a tuple of such. *)
Fixpoint py_isinstance (x klass : value) {struct klass} : result bool :=
  match klass with
  | VClass k => Ret (instance_of x k)
  | VTuple ks =>
      (fix any (ks : list value) : result bool :=
         match ks with
         | [] => Ret false
         | k :: ks' =>
             b <- py_isinstance x k ;;
             if b then Ret true else any ks'
         end) ks
  | _ => Raise TypeError
  end.

(** `isinstance(x, K)` for a class [K] imported from another module
    (`colors.Color`, `Shape`, `UserNode`, `NormalDate`): no value of the model
    is an instance of one. *)
Definition isinstance_imported (x : value) : bool := false.

(** `hasattr(x, '__call__')`. *)
Definition callable (x : value) : bool :=
  match x with
  | VClass _ => true
  | VInst c _ =>
      match resolve c "__call__" with Some _ => true | None => false end
  | _ => false
  end.

(** `str(x)`: text is its own text form; any other text form is left to the
    interpreter. *)
Definition py_str (x : value) : result value :=
  match x with
  | VStr _ => Ret x
  | _ => Outside "str"
  end.

(** `for e in xs: if not f(e): return False`, then `return True`. *)
Fixpoint all_pass (f : value -> result value) (xs : list value) : result value :=
  match xs with
  | [] => Ret VTrue
  | e :: xs' =>
      r <- f e ;;
      if negb (truthy r) then Ret VFalse else all_pass f xs'
  end.

(** `for t in ts: if t(x): return True`, then `return False`. *)
Fixpoint first_pass (ts : list (value -> result value)) (x : value)
  : result value :=
  match ts with
  | [] => Ret VFalse
  | t :: ts' =>
      r <- t x ;;
      if truthy r then Ret VTrue else first_pass ts' x
  end.

(** ** The module-level instances the method bodies name *)

Definition isAuto : value := VInst Auto [].
Definition isString : value := VInst _isString [].
Definition isNumber : value := VInst _isNumber [].
Definition isColor : value := VInst _isColor [].

Definition isListOfNumbers : value :=
  VInst SequenceOf
    [("_elemTest", isNumber); ("_emptyOK", VInt 1); ("_NoneOK", VInt 0);
     ("_lo", VInt 0); ("_hi", VInt 2147483647);
     ("_str", VStr "isListOfNumbers")].

Definition isListOfStrings : value :=
  VInst SequenceOf
    [("_elemTest", isString); ("_emptyOK", VInt 1); ("_NoneOK", VInt 0);
     ("_lo", VInt 0); ("_hi", VInt 2147483647);
     ("_str", VStr "isListOfStrings")].

(** ** `normalize` *)

Definition Validator_normalize (self x : value) : result value :=
  Ret x.

Definition _isBoolean_normalize (self x : value) : result value :=
  b <- py_contains (VTuple [VInt 0; VInt 1]) x ;;
  if b then Ret x else
  S <- try_except_all (py_upper x) (Raise ValueError) ;;
  yes <- py_contains (VTuple [VStr "YES"; VStr "TRUE"]) S ;;
  if yes then Ret VTrue else
  no <- py_contains (VTuple [VStr "NO"; VStr "FALSE"; VNone]) S ;;
  if no then Ret VFalse else
  Raise ValueError.

Definition _isNumber_normalize (self x : value) : result value :=
  try_except_all (py_float x) (py_int x).

Definition _isInt_normalize (self x : value) : result value :=
  py_int x.

(** The last line calls the function `_isNumber.normalize` with the single
    argument [x]. *)
Definition _isNumberOrNone_normalize (self x : value) : result value :=
  if is_None x then Ret x else
  call_def2 _isNumber_normalize [x].

Definition _isNormalDate_normalize (self x : value) : result value :=
  Outside "NormalDate".

(** The `normalize` each class body defines. *)
Definition normalize_of (k : cls) : option (value -> value -> result value) :=
  match k with
  | Validator => Some Validator_normalize
  | _isBoolean => Some _isBoolean_normalize
  | _isNumber => Some _isNumber_normalize
  | _isInt => Some _isInt_normalize
  | _isNumberOrNone => Some _isNumberOrNone_normalize
  | _isNormalDate => Some _isNormalDate_normalize
  | _ => None
  end.

(** `self.normalize(x)`. *)
Definition send_normalize (self x : value) : result value :=
  match class_of self with
  | Some c =>
      match resolve c "normalize" with
      | Some k =>
          match normalize_of k with
          | Some body => body self x
          | None => Raise AttributeError
          end
      | None => Raise AttributeError
      end
  | None => Raise AttributeError
  end.

(** ** `normalizeTest` *)

Definition Validator_normalizeTest (self x : value) : result value :=
  try_except_all
    (_ <- send_normalize self x ;; Ret VTrue)
    (Ret VFalse).

(** `self.normalizeTest(x)`: only [Validator] defines the method. *)
Definition send_normalizeTest (self x : value) : result value :=
  match class_of self with
  | Some c =>
      match resolve c "normalizeTest" with
      | Some Validator => Validator_normalizeTest self x
      | _ => Raise AttributeError
      end
  | None => Raise AttributeError
  end.

(** ** `test` *)

Definition _isAnything_test (self x : value) : result value :=
  Ret VTrue.

Definition _isNothing_test (self x : value) : result value :=
  Ret VFalse.

Definition _isBoolean_test (self x : value) : result value :=
  if type_in_int_bool x
  then b <- py_contains (VTuple [VInt 0; VInt 1]) x ;; Ret (VBool b)
  else send_normalizeTest self x.

Definition _isString_test (self x : value) : result value :=
  Ret (VBool (isStrType x)).

Definition _isCodec_test (self x : value) : result value :=
  if negb (isStrType x) then Ret VFalse else
  try_except is_LookupError
    (_ <- @Outside value "codecs.lookup" ;; Ret VTrue)
    (Ret VFalse).

Definition _isNumber_test (self x : value) : result value :=
  if type_in_NumberTypes x then Ret VTrue
  else send_normalizeTest self x.

Definition _isInt_test (self x : value) : result value :=
  if negb (isStrType x || type_is_int x) then Ret VFalse
  else send_normalizeTest self x.

(** `isNumber(x)`: [Validator.__call__] on the module's [isNumber], whose
    `test` is `_isNumber.test`. *)
Definition call_isNumber (x : value) : result value :=
  _isNumber_test isNumber x.

Definition _isNumberOrNone_test (self x : value) : result value :=
  if is_None x then Ret VTrue else call_isNumber x.

Definition isNumberInRange_test (self x : value) : result value :=
  r <- try_except is_ValueError
         (n <- send_normalize self x ;;
          mn <- getattr self "min" ;;
          a <- py_le mn n ;;
          if a then mx <- getattr self "max" ;; py_le n mx
          else Ret false)
         (Ret false) ;;
  if r then Ret VTrue else Ret VFalse.

Definition _isListOfShapes_test (self x : value) : result value :=
  if isSeqType x then
    Ret (fold_left
           (fun answer e =>
              if negb (isinstance_imported e) then VInt 0 else answer)
           (elements x) (VInt 1))
  else Ret VFalse.

Definition _isTransform_test (self x : value) : result value :=
  if isSeqType x then
    n <- py_len x ;;
    if n =? 6 then all_pass call_isNumber (elements x)
    else Ret VFalse
  else Ret VFalse.

Definition _isColor_test (self x : value) : result value :=
  Ret (VBool (isinstance_imported x)).

(** `isColor(x)`. *)
Definition call_isColor (x : value) : result value :=
  _isColor_test isColor x.

Definition _isColorOrNone_test (self x : value) : result value :=
  if is_None x then Ret VTrue else call_isColor x.

Definition _isNormalDate_test (self x : value) : result value :=
  if isinstance_imported x then Ret VTrue else
  if negb (is_None x) then send_normalizeTest self x
  else Ret VFalse.

Definition _isValidChild_test (self x : value) : result value :=
  Ret (VBool (isinstance_imported x || isinstance_imported x)).

Definition _isValidChildOrNone_test (self x : value) : result value :=
  r <- call_def2 _isValidChild_test [self; x] ;;
  if truthy r then Ret r else Ret (VBool (is_None x)).

Definition _isCallable_test (self x : value) : result value :=
  Ret (VBool (callable x)).

Definition OneOf_test (self x : value) : result value :=
  enum <- getattr self "_enum" ;;
  b <- py_contains enum x ;;
  Ret (VBool b).

(** [elemTest e] stands for `self._elemTest(e)`. *)
Definition SequenceOf_test (elemTest : value -> result value) (self x : value)
  : result value :=
  if negb (isSeqType x) then
    if is_None x then getattr self "_NoneOK"
    else Ret VFalse
  else if py_eq x (VList []) || py_eq x (VTuple []) then
    getattr self "_emptyOK"
  else
    lo <- getattr self "_lo" ;;
    n <- py_len x ;;
    a <- py_le lo (VInt n) ;;
    inside <- (if a then hi <- getattr self "_hi" ;; py_le (VInt n) hi
               else Ret false) ;;
    if negb inside then Ret VFalse
    else all_pass elemTest (elements x).

(** `isListOfNumbers(x)` and `isListOfStrings(x)`. *)
Definition call_isListOfNumbers (x : value) : result value :=
  SequenceOf_test call_isNumber isListOfNumbers x.

Definition call_isListOfStrings (x : value) : result value :=
  SequenceOf_test (_isString_test isString) isListOfStrings x.

Definition _isListOfNumbersOrNone_test (self x : value) : result value :=
  if is_None x then Ret VTrue else call_isListOfNumbers x.

Definition _isListOfStringsOrNone_test (self x : value) : result value :=
  if is_None x then Ret VTrue else call_isListOfStrings x.

(** [tests] stands for the calls `t(x)`, one for each `t in self._tests`. *)
Definition EitherOr_test (tests : result (list (value -> result value)))
  (self x : value) : result value :=
  ts <- tests ;;
  first_pass ts x.

Definition NoneOr_test (elemTest : value -> result value) (self x : value)
  : result value :=
  if is_None x then Ret VTrue
  else elemTest x.

Definition Auto_test (self x : value) : result value :=
  match class_of self with
  | Some c =>
      if same x (VClass c) then Ret VTrue
      else b <- py_isinstance x (VClass c) ;; Ret (VBool b)
  | None => Raise AttributeError
  end.

(** `isAuto(x)`. *)
Definition call_isAuto (x : value) : result value :=
  Auto_test isAuto x.

Definition AutoOr_test (elemTest : value -> result value) (self x : value)
  : result value :=
  r <- call_isAuto x ;;
  if truthy r then Ret r else elemTest x.

Definition isInstanceOf_test (self x : value) : result value :=
  klass <- getattr self "_klass" ;;
  b <- py_isinstance x klass ;;
  Ret (VBool b).

(** [pattern_match text] stands for `self._pattern.match(text)`; the first
    line formats [x] and the pattern for the trace. *)
Definition matchesPattern_test (pattern_match : value -> result value)
  (self x : value) : result value :=
  pattern <- getattr self "_pattern" ;;
  _ <- py_str x ;;
  _ <- py_str pattern ;;
  text <- (if type_is_str x then Ret x else py_str x) ;;
  m <- pattern_match text ;;
  Ret (VBool (negb (py_eq m VNone))).

(** The `test` each class body defines, given the calls of the receiver's
    attributes: [child name e] is `self.<name>(e)`, [each name] the calls of
    the members of `self.<name>`, and [inner a b e] is `self.<a>.<b>(e)`. *)
Definition test_of
  (child : string -> value -> result value)
  (each : string -> result (list (value -> result value)))
  (inner : string -> string -> value -> result value)
  (k : cls) : option (value -> value -> result value) :=
  match k with
  | _isAnything => Some _isAnything_test
  | _isNothing => Some _isNothing_test
  | _isBoolean => Some _isBoolean_test
  | _isString => Some _isString_test
  | _isCodec => Some _isCodec_test
  | _isNumber => Some _isNumber_test
  | _isInt => Some _isInt_test
  | _isNumberOrNone => Some _isNumberOrNone_test
  | _isListOfNumbersOrNone => Some _isListOfNumbersOrNone_test
  | isNumberInRange => Some isNumberInRange_test
  | _isListOfShapes => Some _isListOfShapes_test
  | _isListOfStringsOrNone => Some _isListOfStringsOrNone_test
  | _isTransform => Some _isTransform_test
  | _isColor => Some _isColor_test
  | _isColorOrNone => Some _isColorOrNone_test
  | _isNormalDate => Some _isNormalDate_test
  | _isValidChild => Some _isValidChild_test
  | _isValidChildOrNone => Some _isValidChildOrNone_test
  | _isCallable => Some _isCallable_test
  | OneOf => Some OneOf_test
  | SequenceOf => Some (SequenceOf_test (child "_elemTest"))
  | EitherOr => Some (EitherOr_test (each "_tests"))
  | NoneOr => Some (NoneOr_test (child "_elemTest"))
  | Auto => Some Auto_test
  | AutoOr => Some (AutoOr_test (child "_elemTest"))
  | isInstanceOf => Some isInstanceOf_test
  | matchesPattern => Some (matchesPattern_test (inner "_pattern" "match"))
  | Validator | DerivedValue | Inherit => None
  end.

(** `self.test(x)`, given the calls of the receiver's attributes. *)
Definition send_test_via
  (child : string -> value -> result value)
  (each : string -> result (list (value -> result value)))
  (inner : string -> string -> value -> result value)
  (self x : value) : result value :=
  match class_of self with
  | Some c =>
      match resolve c "test" with
      | Some k =>
          match test_of child each inner k with
          | Some body => body self x
          | None => Raise AttributeError
          end
      | None => Raise AttributeError
      end
  | None => Raise AttributeError
  end.

(** `Validator.__call__`: `return self.test(x)`. *)
Definition Validator___call__ (send_test : value -> value -> result value)
  (self x : value) : result value :=
  send_test self x.

(* ================================================================== *)
(** * Calling a value *)

(** [py_call f x] is `f(x)`.  An instance is callable through the
    `__call__` its class inherits; a class is called to construct; nothing
    else in the model is callable.  The recursion follows the attributes of
    the receiver, which are parts of it. *)
Fixpoint py_call (f x : value) {struct f} : result value :=
  match f with
  | VInst c d =>
      match resolve c "__call__" with
      | Some _ =>
          Validator___call__
            (send_test_via
               (* self.<name>(e) *)
               (fun name e =>
                  (fix child (d : dict) : result value :=
                     match d with
                     | [] => Raise AttributeError
                     | (k, v) :: d' =>
                         if String.eqb name k then py_call v e else child d'
                     end) d)
               (* t(x) for t in self.<name> *)
               (fun name =>
                  (fix each (d : dict) : result (list (value -> result value)) :=
                     match d with
                     | [] => Raise AttributeError
                     | (k, v) :: d' =>
                         if String.eqb name k then
                           match v with
                           | VList ts | VTuple ts =>
                               Ret (map (fun t e => py_call t e) ts)
                           | VStr s =>
                               Ret (map (fun _ _ => Raise TypeError)
                                      (list_ascii_of_string s))
                           | _ => Raise TypeError
                           end
                         else each d'
                     end) d)
               (* self.<a>.<b>(e) *)
               (fun a b e =>
                  (fix outer (d : dict) : result value :=
                     match d with
                     | [] => Raise AttributeError
                     | (k, v) :: d' =>
                         if String.eqb a k then
                           match v with
                           | VInst _ d2 =>
                               (fix child (d : dict) : result value :=
                                  match d with
                                  | [] => Raise AttributeError
                                  | (k, w) :: d' =>
                                      if String.eqb b k then py_call w e
                                      else child d'
                                  end) d2
                           | _ => Raise AttributeError
                           end
                         else outer d'
                     end) d))
            f x
      | None => Raise TypeError
      end
  | VClass c => construct c [x] []
  | _ => Raise TypeError
  end.

(** `self.<name>(e)`: fetch the attribute, call it. *)
Definition call_attr (self : value) (name : string) (e : value) : result value :=
  v <- getattr self name ;;
  py_call v e.

(** The calls `t(x)` that `for t in v` makes. *)
Definition calls_in (v : value) : result (list (value -> result value)) :=
  match v with
  | VList ts | VTuple ts => Ret (map py_call ts)
  | VStr s => Ret (map (fun _ _ => Raise TypeError) (list_ascii_of_string s))
  | _ => Raise TypeError
  end.

(** The calls `t(x)`, one for each `t in self.<name>`. *)
Definition calls_attr (self : value) (name : string)
  : result (list (value -> result value)) :=
  v <- getattr self name ;;
  calls_in v.

(** `self.<a>.<b>(e)`. *)
Definition call_attr2 (self : value) (a b : string) (e : value) : result value :=
  v <- getattr self a ;;
  call_attr v b e.

(** `self.test(x)`. *)
Definition send_test (self x : value) : result value :=
  send_test_via (call_attr self) (calls_attr self) (call_attr2 self) self x.

(** `V.test(x)`, `V.normalize(x)`, `V.normalizeTest(x)` and `V(x)` as a
    caller writes them. *)
Definition test (V x : value) : result value := send_test V x.
Definition normalize (V x : value) : result value := send_normalize V x.
Definition normalizeTest (V x : value) : result value := send_normalizeTest V x.

(* ================================================================== *)
(** * The instances the module creates *)

(** The value a constructor call leaves in a module-level name. *)
Definition made (r : result value) : value :=
  match r with
  | Ret v => v
  | _ => VNone
  end.

Definition inherit : value :=
  Eval vm_compute in made (construct Inherit [] []).

Definition isBoolean : value :=
  Eval vm_compute in made (construct _isBoolean [] []).
Definition isCodec : value :=
  Eval vm_compute in made (construct _isCodec [] []).
Definition isInt : value :=
  Eval vm_compute in made (construct _isInt [] []).
Definition isNoneOrInt : value :=
  Eval vm_compute in made (construct NoneOr [isInt; VStr "isNoneOrInt"] []).
Definition isNumberOrNone : value :=
  Eval vm_compute in made (construct _isNumberOrNone [] []).
Definition isTextAnchor : value :=
  Eval vm_compute in
    made (construct OneOf
            [VStr "start"; VStr "middle"; VStr "end"; VStr "boxauto"] []).
Definition isListOfNumbersOrNone : value :=
  Eval vm_compute in made (construct _isListOfNumbersOrNone [] []).
Definition isListOfShapes : value :=
  Eval vm_compute in made (construct _isListOfShapes [] []).
Definition isListOfStringsOrNone : value :=
  Eval vm_compute in made (construct _isListOfStringsOrNone [] []).
Definition isTransform : value :=
  Eval vm_compute in made (construct _isTransform [] []).
Definition isListOfColors : value :=
  Eval vm_compute in
    made (construct SequenceOf [isColor; VStr "isListOfColors"] []).
Definition isColorOrNone : value :=
  Eval vm_compute in made (construct _isColorOrNone [] []).
Definition isValidChild : value :=
  Eval vm_compute in made (construct _isValidChild [] []).
Definition isShape : value := isValidChild.
Definition isValidChildOrNone : value :=
  Eval vm_compute in made (construct _isValidChildOrNone [] []).
Definition isNoneOrShape : value := isValidChildOrNone.
Definition isAnything : value :=
  Eval vm_compute in made (construct _isAnything [] []).
Definition isNothing : value :=
  Eval vm_compute in made (construct _isNothing [] []).
Definition isXYCoord : value :=
  Eval vm_compute in
    made (construct SequenceOf [isNumber]
            [("lo", VInt 2); ("hi", VInt 2); ("emptyOK", VInt 0)]).
Definition isBoxAnchor : value :=
  Eval vm_compute in
    made (construct OneOf
            [VStr "nw"; VStr "n"; VStr "ne"; VStr "w"; VStr "c"; VStr "e";
             VStr "sw"; VStr "s"; VStr "se"; VStr "autox"; VStr "autoy"] []).
Definition isNoneOrString : value :=
  Eval vm_compute in made (construct NoneOr [isString; VStr "NoneOrString"] []).
Definition isNoneOrListOfNoneOrStrings : value :=
  Eval vm_compute in
    made (construct SequenceOf
            [isNoneOrString; VStr "isNoneOrListOfNoneOrStrings"]
            [("NoneOK", VInt 1)]).
Definition isListOfNoneOrString : value :=
  Eval vm_compute in
    made (construct SequenceOf
            [isNoneOrString; VStr "isListOfNoneOrString"]
            [("NoneOK", VInt 0)]).
Definition isNoneOrListOfNoneOrNumbers : value :=
  Eval vm_compute in
    made (construct SequenceOf
            [isNumberOrNone; VStr "isNoneOrListOfNoneOrNumbers"]
            [("NoneOK", VInt 1)]).
Definition isCallable : value :=
  Eval vm_compute in made (construct _isCallable [] []).
Definition isStringOrCallable : value :=
  Eval vm_compute in
    made (construct EitherOr
            [VTuple [isString; isCallable]; VStr "isStringOrCallable"] []).
Definition isStringOrCallableOrNone : value :=
  Eval vm_compute in
    made (construct NoneOr
            [isStringOrCallable; VStr "isStringOrCallableNone"] []).
Definition isStringOrNone : value :=
  Eval vm_compute in made (construct NoneOr [isString; VStr "isStringOrNone"] []).
Definition isNormalDate : value :=
  Eval vm_compute in made (construct _isNormalDate [] []).

(** The validators the module exports, in the order it creates them. *)
Definition exported : list value :=
  [isAuto; isBoolean; isString; isCodec; isNumber; isInt; isNoneOrInt;
   isNumberOrNone; isTextAnchor; isListOfNumbers; isListOfNumbersOrNone;
   isListOfShapes; isListOfStrings; isListOfStringsOrNone; isTransform;
   isColor; isListOfColors; isColorOrNone; isValidChild; isValidChildOrNone;
   isAnything; isNothing; isXYCoord; isBoxAnchor; isNoneOrString;
   isNoneOrListOfNoneOrStrings; isListOfNoneOrString;
   isNoneOrListOfNoneOrNumbers; isCallable; isStringOrCallable;
   isStringOrCallableOrNone; isStringOrNone; isNormalDate].

(* ================================================================== *)
(** * The text form of a validator *)

(** `C.__name__`. *)
Definition class_name (c : cls) : string :=
  match c with
  | Validator => "Validator"
  | _isAnything => "_isAnything"
  | _isNothing => "_isNothing"
  | _isBoolean => "_isBoolean"
  | _isString => "_isString"
  | _isCodec => "_isCodec"
  | _isNumber => "_isNumber"
  | _isInt => "_isInt"
  | _isNumberOrNone => "_isNumberOrNone"
  | _isListOfNumbersOrNone => "_isListOfNumbersOrNone"
  | isNumberInRange => "isNumberInRange"
  | _isListOfShapes => "_isListOfShapes"
  | _isListOfStringsOrNone => "_isListOfStringsOrNone"
  | _isTransform => "_isTransform"
  | _isColor => "_isColor"
  | _isColorOrNone => "_isColorOrNone"
  | _isNormalDate => "_isNormalDate"
  | _isValidChild => "_isValidChild"
  | _isValidChildOrNone => "_isValidChildOrNone"
  | _isCallable => "_isCallable"
  | OneOf => "OneOf"
  | SequenceOf => "SequenceOf"
  | EitherOr => "EitherOr"
  | NoneOr => "NoneOr"
  | Auto => "Auto"
  | AutoOr => "AutoOr"
  | isInstanceOf => "isInstanceOf"
  | matchesPattern => "matchesPattern"
  | DerivedValue => "DerivedValue"
  | Inherit => "Inherit"
  end.

(** `Validator.__str__`: `getattr(self,'_str',self.__class__.__name__)`. *)
Definition Validator___str__ (self : value) : result value :=
  match self with
  | VInst c d =>
      match lookup d "_str" with
      | Some v => Ret v
      | None => Ret (VStr (class_name c))
      end
  | _ => Raise AttributeError
  end.

(** `Inherit.__repr__`. *)
Definition Inherit___repr__ (self : value) : result value :=
  Ret (VStr "inherit").

(** `V.__str__()`: the method of [Validator] for the classes under it; a
    class with none falls back on its `__repr__`, which only [Inherit]
    defines in the file. *)
Definition send_str (V : value) : result value :=
  match class_of V with
  | Some c =>
      match resolve c "__str__" with
      | Some _ => Validator___str__ V
      | None =>
          match resolve c "__repr__" with
          | Some _ => Inherit___repr__ V
          | None => Outside "object.__repr__"
          end
      end
  | None => Outside "str"
  end.

(** The exported validators whose `test` the file computes by itself: all but
    `isCodec` and `isNormalDate`. *)
Definition exported_decided : list value :=
  filter (fun V => negb (same V isCodec || same V isNormalDate)) exported.


(** The four words the boolean `normalize` reads, once in upper case. *)
Definition boolean_words : list string := ["YES"; "TRUE"; "NO"; "FALSE"].

(** A value the call [t x] returned and a condition reads as false. *)
Definition declined (r : result value) : Prop :=
  exists v, r = Ret v /\ truthy v = false.

(* ================================================================== *)
(** * Properties *)

(** ** Outcomes *)

(** A result that is a value true in a condition, as `if t(x):` reads it. *)
Definition accepted (r : result value) : Prop :=
  exists v, r = Ret v /\ truthy v = true.

(** A result that compares equal to [w], as `r == w` reads it. *)
Definition result_eq (r : result value) (w : value) : Prop :=
  exists v, r = Ret v /\ py_eq v w = true.

(** A result that is one of the two boolean objects. *)
Definition is_bool (r : result value) : Prop :=
  exists b, r = Ret (VBool b).

Lemma bind_Ret {A B} (m : result A) (k : A -> result B) (b : B) :
  bind m k = Ret b -> exists a, m = Ret a /\ k a = Ret b.
Proof.
  destruct m as [a | e | w]; simpl; intros H; try discriminate.
  exists a; split; [reflexivity | exact H].
Qed.

Lemma bind_ext {A B} (m : result A) (k k' : A -> result B) :
  (forall a, k a = k' a) -> bind m k = bind m k'.
Proof.
  intros E. destruct m; simpl; [apply E | reflexivity | reflexivity].
Qed.

Lemma accepted_Ret (v : value) : accepted (Ret v) <-> truthy v = true.
Proof.
  split.
  - intros [w [E T]]. injection E as <-. exact T.
  - intros T. exists v. split; [reflexivity | exact T].
Qed.

Lemma not_accepted_Raise (e : exn) : ~ accepted (Raise e).
Proof. intros [v [E _]]. discriminate E. Qed.

Lemma not_accepted_Outside (w : string) : ~ accepted (Outside w).
Proof. intros [v [E _]]. discriminate E. Qed.

(** ** The loops *)

Lemma all_pass_ext (f g : value -> result value) (xs : list value) :
  (forall e, f e = g e) -> all_pass f xs = all_pass g xs.
Proof.
  intros E. induction xs as [| e xs IH]; simpl.
  - reflexivity.
  - rewrite E, IH. reflexivity.
Qed.

(** The loop over the elements gives a result accepted in a condition exactly
    when the call on every element does. *)
Lemma all_pass_accepted (f : value -> result value) (xs : list value) :
  accepted (all_pass f xs) <-> Forall (fun e => accepted (f e)) xs.
Proof.
  induction xs as [| e xs IH]; simpl.
  - split; [constructor | intros _; apply accepted_Ret; reflexivity].
  - destruct (f e) as [r | ex | w] eqn:Fe; simpl.
    + destruct (truthy r) eqn:T; simpl.
      * rewrite IH. split.
        -- intros H. constructor; [rewrite Fe; apply accepted_Ret; exact T | exact H].
        -- intros H. inversion H; assumption.
      * split.
        -- intros H. apply accepted_Ret in H. discriminate H.
        -- intros H. inversion H as [| ? ? H1 _]. rewrite Fe in H1.
           apply accepted_Ret in H1. congruence.
    + split.
      * intros H. destruct (not_accepted_Raise _ H).
      * intros H. inversion H as [| ? ? H1 _]. rewrite Fe in H1.
        destruct (not_accepted_Raise _ H1).
    + split.
      * intros H. destruct (not_accepted_Outside _ H).
      * intros H. inversion H as [| ? ? H1 _]. rewrite Fe in H1.
        destruct (not_accepted_Outside _ H1).
Qed.

(** When the loop returns, it returns a boolean object. *)
Lemma all_pass_bool (f : value -> result value) (xs : list value) (v : value) :
  all_pass f xs = Ret v -> exists b, v = VBool b.
Proof.
  revert v. induction xs as [| e xs IH]; simpl; intros v H.
  - injection H as <-. exists true. reflexivity.
  - destruct (f e) as [r | ex | w]; simpl in H; try discriminate.
    destruct (truthy r); simpl in H.
    + apply IH. exact H.
    + injection H as <-. exists false. reflexivity.
Qed.

Lemma first_pass_bool (ts : list (value -> result value)) (x v : value) :
  first_pass ts x = Ret v -> exists b, v = VBool b.
Proof.
  revert v. induction ts as [| t ts IH]; simpl; intros v H.
  - injection H as <-. exists false. reflexivity.
  - destruct (t x) as [r | ex | w]; simpl in H; try discriminate.
    destruct (truthy r).
    + injection H as <-. exists true. reflexivity.
    + apply IH. exact H.
Qed.

(** ** The call of an instance unfolds to the test of its class *)

Lemma child_unfold (d : dict) (name : string) (e : value) :
  (fix child (d : dict) : result value :=
     match d with
     | [] => Raise AttributeError
     | (k, v) :: d' => if String.eqb name k then py_call v e else child d'
     end) d
  = match lookup d name with
    | Some v => py_call v e
    | None => Raise AttributeError
    end.
Proof.
  induction d as [| [k v] d IH]; simpl.
  - reflexivity.
  - destruct (String.eqb name k); [reflexivity | exact IH].
Qed.

Lemma each_unfold (d : dict) (name : string) :
  (fix each (d : dict) : result (list (value -> result value)) :=
     match d with
     | [] => Raise AttributeError
     | (k, v) :: d' =>
         if String.eqb name k then
           match v with
           | VList ts | VTuple ts => Ret (map (fun t e => py_call t e) ts)
           | VStr s =>
               Ret (map (fun _ _ => Raise TypeError) (list_ascii_of_string s))
           | _ => Raise TypeError
           end
         else each d'
     end) d
  = match lookup d name with
    | Some v => calls_in v
    | None => Raise AttributeError
    end.
Proof.
  induction d as [| [k v] d IH]; simpl.
  - reflexivity.
  - destruct (String.eqb name k); [destruct v; reflexivity | exact IH].
Qed.

Lemma inner_unfold (d : dict) (a b : string) (e : value) :
  (fix outer (d : dict) : result value :=
     match d with
     | [] => Raise AttributeError
     | (k, v) :: d' =>
         if String.eqb a k then
           match v with
           | VInst _ d2 =>
               (fix child (d : dict) : result value :=
                  match d with
                  | [] => Raise AttributeError
                  | (k, w) :: d' =>
                      if String.eqb b k then py_call w e else child d'
                  end) d2
           | _ => Raise AttributeError
           end
         else outer d'
     end) d
  = match lookup d a with
    | Some v => call_attr v b e
    | None => Raise AttributeError
    end.
Proof.
  induction d as [| [k v] d IH]; simpl.
  - reflexivity.
  - destruct (String.eqb a k); [| exact IH].
    destruct v; try reflexivity.
    unfold call_attr, getattr. rewrite child_unfold.
    destruct (lookup d0 b); reflexivity.
Qed.

Lemma call_attr_lookup (c : cls) (d : dict) (name : string) (e : value) :
  call_attr (VInst c d) name e
  = match lookup d name with
    | Some v => py_call v e
    | None => Raise AttributeError
    end.
Proof.
  unfold call_attr, getattr. destruct (lookup d name); reflexivity.
Qed.

Lemma calls_attr_lookup (c : cls) (d : dict) (name : string) :
  calls_attr (VInst c d) name
  = match lookup d name with
    | Some v => calls_in v
    | None => Raise AttributeError
    end.
Proof.
  unfold calls_attr, getattr. destruct (lookup d name); reflexivity.
Qed.

Lemma call_attr2_lookup (c : cls) (d : dict) (a b : string) (e : value) :
  call_attr2 (VInst c d) a b e
  = match lookup d a with
    | Some v => call_attr v b e
    | None => Raise AttributeError
    end.
Proof.
  unfold call_attr2, getattr. destruct (lookup d a); reflexivity.
Qed.

(** The test of a class depends on the calls of the attributes only through
    their results. *)
Lemma send_test_via_ext
  (child child' : string -> value -> result value)
  (each each' : string -> result (list (value -> result value)))
  (inner inner' : string -> string -> value -> result value)
  (self x : value) :
  (forall n e, child n e = child' n e) ->
  (forall n, each n = each' n) ->
  (forall a b e, inner a b e = inner' a b e) ->
  send_test_via child each inner self x
  = send_test_via child' each' inner' self x.
Proof.
  intros Hc He Hi. unfold send_test_via.
  destruct (class_of self) as [c |]; [| reflexivity].
  destruct (resolve c "test") as [k |]; [| reflexivity].
  destruct k; simpl; try reflexivity.
  - unfold SequenceOf_test.
    rewrite (all_pass_ext _ _ (elements x) (Hc "_elemTest")). reflexivity.
  - unfold EitherOr_test. rewrite He. reflexivity.
  - unfold NoneOr_test. rewrite Hc. reflexivity.
  - unfold AutoOr_test. rewrite Hc. reflexivity.
  - unfold matchesPattern_test.
    do 4 (apply bind_ext; intros ?). rewrite Hi. reflexivity.
Qed.

(** `V(x)` for an instance: the `__call__` found on the class, which is
    [Validator.__call__], runs `self.test(x)`. *)
Lemma py_call_inst (c : cls) (d : dict) (x : value) :
  py_call (VInst c d) x
  = match resolve c "__call__" with
    | Some _ => Validator___call__ send_test (VInst c d) x
    | None => Raise TypeError
    end.
Proof.
  simpl. destruct (resolve c "__call__"); [| reflexivity].
  unfold Validator___call__, send_test.
  apply send_test_via_ext.
  - intros n e. rewrite child_unfold, call_attr_lookup. reflexivity.
  - intros n. rewrite each_unfold, calls_attr_lookup. reflexivity.
  - intros a b e. rewrite inner_unfold, call_attr2_lookup. reflexivity.
Qed.

(** Every class under [Validator] finds `__call__` in [Validator]. *)
Lemma resolve___call__ (c : cls) :
  issubclass c Validator = true -> resolve c "__call__" = Some Validator.
Proof.
  destruct c; simpl; intros H; try reflexivity; discriminate H.
Qed.

Lemma resolve_normalizeTest (c : cls) :
  issubclass c Validator = true -> resolve c "normalizeTest" = Some Validator.
Proof.
  destruct c; simpl; intros H; try reflexivity; discriminate H.
Qed.

(** ... and some `normalize`, its own or an inherited one. *)
Lemma resolve_normalize (c : cls) :
  issubclass c Validator = true ->
  exists k body, resolve c "normalize" = Some k /\ normalize_of k = Some body.
Proof.
  destruct c; simpl; intros H; try discriminate H;
    (eexists; eexists; split; [ reflexivity | reflexivity ]).
Qed.

(** ** The module-level names hold what the constructor calls return *)

Lemma module_instances_made :
  construct Auto [] [] = Ret isAuto
  /\ construct _isString [] [] = Ret isString
  /\ construct _isNumber [] [] = Ret isNumber
  /\ construct _isColor [] [] = Ret isColor
  /\ construct SequenceOf [isNumber; VStr "isListOfNumbers"] [] = Ret isListOfNumbers
  /\ construct SequenceOf [isString; VStr "isListOfStrings"] [] = Ret isListOfStrings
  /\ construct Inherit [] [] = Ret inherit
  /\ Forall (fun V => instance_of V Validator = true) exported.
Proof.
  repeat split; try reflexivity.
  unfold exported. repeat constructor.
Qed.

(** ** `__call__` *)

(** The calls the method bodies make on module-level validators by name are
    the calls of those instances. *)
Lemma named_calls (x : value) :
  py_call isNumber x = call_isNumber x
  /\ py_call isColor x = call_isColor x
  /\ py_call isAuto x = call_isAuto x
  /\ py_call isListOfNumbers x = call_isListOfNumbers x
  /\ py_call isListOfStrings x = call_isListOfStrings x.
Proof.
  repeat split; reflexivity.
Qed.

(** C9.  Every instance of a class under [Validator] is callable, and the call
    `V(x)` is `V.test(x)`: same value, same exception.  A validator stored in
    an attribute of another and called from there as a function is therefore
    run through its own `test`. *)
Theorem call_is_test (c : cls) (d : dict) (x : value) :
  issubclass c Validator = true ->
  callable (VInst c d) = true
  /\ py_call (VInst c d) x = test (VInst c d) x
  /\ (forall self name,
        getattr self name = Ret (VInst c d) ->
        call_attr self name x = test (VInst c d) x).
Proof.
  intros H.
  assert (E : py_call (VInst c d) x = test (VInst c d) x).
  { rewrite py_call_inst, (resolve___call__ c H). reflexivity. }
  split; [| split].
  - simpl. rewrite (resolve___call__ c H). reflexivity.
  - exact E.
  - intros self name G. unfold call_attr. rewrite G. simpl. exact E.
Qed.

Lemma call_is_test_witness :
  py_call isNumber (VStr "2.5") = test isNumber (VStr "2.5")
  /\ call_attr isXYCoord "_elemTest" (VStr "2.5") = test isNumber (VStr "2.5").
Proof.
  destruct (call_is_test _isNumber [] (VStr "2.5")) as [_ [E A]].
  - reflexivity.
  - split; [exact E | apply A; reflexivity].
Defined.

(** ** `normalizeTest` *)

(** C5.  For a validator `V`, `V.normalizeTest(x)` is `True` exactly when
    `V.normalize(x)` returns, and it is `False` whenever `normalize` raises,
    whatever the exception. *)
Theorem normalizeTest_catches_all (V x : value) :
  instance_of V Validator = true ->
  (normalizeTest V x = Ret VTrue <-> returns (normalize V x))
  /\ (forall e, normalize V x = Raise e -> normalizeTest V x = Ret VFalse).
Proof.
  intros H. destruct V as [| | | | | | | | c d]; try discriminate H.
  simpl in H.
  unfold normalizeTest, normalize, send_normalizeTest. simpl class_of. cbv iota.
  rewrite (resolve_normalizeTest c H). unfold Validator_normalizeTest.
  destruct (send_normalize (VInst c d) x) as [v | e | w]; simpl.
  - split.
    + split; [intros _; exists v; reflexivity | reflexivity].
    + intros e E. discriminate E.
  - split.
    + split; [intros E; discriminate E | intros [v E]; discriminate E].
    + reflexivity.
  - split.
    + split; [intros E; discriminate E | intros [v E]; discriminate E].
    + intros e E. discriminate E.
Qed.

Lemma normalizeTest_catches_all_witness :
  normalize isInt (VFloat infinity) = Raise OverflowError
  /\ normalizeTest isInt (VFloat infinity) = Ret VFalse.
Proof.
  assert (E : normalize isInt (VFloat infinity) = Raise OverflowError)
    by reflexivity.
  split; [exact E |].
  apply (proj2 (normalizeTest_catches_all isInt (VFloat infinity) eq_refl)
           OverflowError E).
Defined.

(** The failures `normalize` produces are of several kinds; each is turned
    into `False`. *)
Lemma normalizeTest_failure_kinds :
  (normalize isNumber VNone = Raise TypeError
   /\ normalizeTest isNumber VNone = Ret VFalse)
  /\ (normalize isNumber (VStr "abc") = Raise ValueError
      /\ normalizeTest isNumber (VStr "abc") = Ret VFalse)
  /\ (normalize isInt (VFloat nan) = Raise ValueError
      /\ normalizeTest isInt (VFloat nan) = Ret VFalse)
  /\ (normalize isInt (VFloat infinity) = Raise OverflowError
      /\ normalizeTest isInt (VFloat infinity) = Ret VFalse)
  /\ (normalize isBoolean (VStr "maybe") = Raise ValueError
      /\ normalizeTest isBoolean (VStr "maybe") = Ret VFalse)
  /\ (normalize isNumber (VStr "3.5") = Ret (VFloat 3.5)
      /\ normalizeTest isNumber (VStr "3.5") = Ret VTrue).
Proof. repeat split; reflexivity. Qed.

(** ** The boolean validator *)

Lemma contains_0_1 (x : value) :
  py_contains (VTuple [VInt 0; VInt 1]) x = Ret (in_0_1 x).
Proof.
  unfold py_contains, in_0_1. simpl existsb. rewrite orb_false_r. reflexivity.
Qed.

Lemma isBoolean_normalize_0_1 (x : value) :
  in_0_1 x = true -> normalize isBoolean x = Ret x.
Proof.
  intros H. unfold normalize, send_normalize. simpl.
  unfold _isBoolean_normalize. rewrite contains_0_1, H. reflexivity.
Qed.

(** C10.  A value that compares equal to 0 or to 1 -- the integers, the
    booleans, a float such as 1.0 -- is returned by the boolean `normalize`
    as it is, and accepted by the boolean `test`; any other number is
    rejected. *)
Theorem isBoolean_keeps_0_and_1 (x : value) :
  (in_0_1 x = true ->
   normalize isBoolean x = Ret x /\ test isBoolean x = Ret VTrue)
  /\ (as_num x <> None -> in_0_1 x = false ->
      test isBoolean x = Ret VFalse).
Proof.
  split.
  - intros H.
    assert (N : normalize isBoolean x = Ret x)
      by (apply isBoolean_normalize_0_1; exact H).
    split; [exact N |].
    unfold test, send_test, send_test_via. simpl.
    unfold _isBoolean_test. rewrite contains_0_1, H.
    destruct (type_in_int_bool x); [reflexivity |].
    unfold send_normalizeTest. simpl. unfold Validator_normalizeTest.
    unfold normalize in N. rewrite N. reflexivity.
  - intros Hn H.
    unfold test, send_test, send_test_via. simpl.
    unfold _isBoolean_test. rewrite contains_0_1, H.
    destruct x; try (exfalso; apply Hn; reflexivity); try reflexivity.
    simpl. unfold send_normalizeTest, Validator_normalizeTest, send_normalize.
    simpl. unfold _isBoolean_normalize. rewrite contains_0_1, H. reflexivity.
Qed.

Lemma isBoolean_keeps_0_and_1_witness :
  (normalize isBoolean (VFloat 1) = Ret (VFloat 1)
   /\ test isBoolean (VFloat 1) = Ret VTrue)
  /\ test isBoolean (VInt 2) = Ret VFalse.
Proof.
  split.
  - apply (proj1 (isBoolean_keeps_0_and_1 (VFloat 1))). reflexivity.
  - apply (proj2 (isBoolean_keeps_0_and_1 (VInt 2))).
    + discriminate.
    + reflexivity.
Defined.

(** Text is matched whatever its case. *)
Lemma isBoolean_normalize_text (s : string) :
  (str_upper s = "YES" \/ str_upper s = "TRUE" ->
   normalize isBoolean (VStr s) = Ret VTrue)
  /\ (str_upper s = "NO" \/ str_upper s = "FALSE" ->
      normalize isBoolean (VStr s) = Ret VFalse).
Proof.
  unfold normalize, send_normalize. simpl. unfold _isBoolean_normalize.
  split; intros [E | E]; simpl; rewrite E; reflexivity.
Qed.

(** C3.  The boolean `normalize` on the inputs the claim lists: `"YES"` and
    `"true"` give `True`, `"NO"` gives `False`, `"maybe"` raises `ValueError`;
    `None` raises `ValueError` too, where the claim expects `False`. *)
Theorem isBoolean_normalize_examples :
  normalize isBoolean (VStr "YES") = Ret VTrue
  /\ normalize isBoolean (VStr "true") = Ret VTrue
  /\ normalize isBoolean (VStr "NO") = Ret VFalse
  /\ normalize isBoolean (VStr "maybe") = Raise ValueError
  /\ normalize isBoolean VNone = Raise ValueError.
Proof. repeat split; reflexivity. Qed.

(** ** Which tests return on every input *)

Lemma py_float_inside (x : value) :
  (exists v, py_float x = Ret v) \/ (exists e, py_float x = Raise e).
Proof.
  destruct x; simpl; try (right; eexists; reflexivity);
    try (left; eexists; reflexivity).
  - unfold float_of_Z. destruct (binary_normalize prec emax n 0 false); simpl;
      try (left; eexists; reflexivity); right; eexists; reflexivity.
  - destruct (parse_float s);
      [left; eexists; reflexivity | right; eexists; reflexivity].
Qed.

Lemma py_int_inside (x : value) :
  (exists v, py_int x = Ret v) \/ (exists e, py_int x = Raise e).
Proof.
  destruct x; simpl; try (right; eexists; reflexivity);
    try (left; eexists; reflexivity).
  - unfold Z_of_float. destruct (Prim2SF f); simpl;
      try (left; eexists; reflexivity); right; eexists; reflexivity.
  - destruct (parse_int s);
      [left; eexists; reflexivity | right; eexists; reflexivity].
Qed.

(** The tests of `isNumber`, `isInt`, `isBoolean` and `isString` return a
    boolean object on every value: what their `normalize` raises is caught
    by `normalizeTest`. *)
Lemma primitive_tests_total (x : value) :
  is_bool (test isNumber x) /\ is_bool (test isInt x)
  /\ is_bool (test isBoolean x) /\ is_bool (test isString x).
Proof.
  unfold test, send_test, send_test_via. simpl.
  split; [| split; [| split]].
  - unfold _isNumber_test. destruct (type_in_NumberTypes x).
    + exists true. reflexivity.
    + unfold send_normalizeTest, Validator_normalizeTest, send_normalize. simpl.
      unfold _isNumber_normalize.
      destruct (py_float_inside x) as [[v E] | [e E]]; rewrite E; simpl.
      * exists true. reflexivity.
      * destruct (py_int_inside x) as [[v E'] | [e' E']]; rewrite E'; simpl.
        -- exists true. reflexivity.
        -- exists false. reflexivity.
  - unfold _isInt_test. destruct (negb (isStrType x || type_is_int x)).
    + exists false. reflexivity.
    + unfold send_normalizeTest, Validator_normalizeTest, send_normalize. simpl.
      unfold _isInt_normalize.
      destruct (py_int_inside x) as [[v E] | [e E]]; rewrite E; simpl.
      * exists true. reflexivity.
      * exists false. reflexivity.
  - unfold _isBoolean_test. rewrite contains_0_1.
    destruct (type_in_int_bool x).
    + eexists. reflexivity.
    + unfold send_normalizeTest, Validator_normalizeTest, send_normalize. simpl.
      unfold _isBoolean_normalize. rewrite contains_0_1.
      destruct (in_0_1 x); simpl.
      * exists true. reflexivity.
      * destruct x; simpl; try (exists false; reflexivity).
        destruct (String.eqb (str_upper s) "YES" || (String.eqb (str_upper s) "TRUE" || false));
          simpl; [exists true; reflexivity |].
        destruct (String.eqb (str_upper s) "NO" || (String.eqb (str_upper s) "FALSE" || false));
          simpl; [exists true; reflexivity | exists false; reflexivity].
  - eexists. reflexivity.
Qed.

(** ** `normalize` after an accepting `test` *)

(** Where `test` accepts a value by its type alone, the `normalize` of
    `isBoolean`, `isNumber` and `isInt` returns, and returns the same once
    more on its own result. *)
Lemma normalize_idempotent (x : value) :
  (type_in_int_bool x = true -> in_0_1 x = true ->
   normalize isBoolean x = Ret x)
  /\ (type_in_NumberTypes x = true ->
      exists y, normalize isNumber x = Ret y /\ normalize isNumber y = Ret y)
  /\ (type_is_int x = true -> normalize isInt x = Ret x).
Proof.
  split; [| split].
  - intros _ H. apply isBoolean_normalize_0_1. exact H.
  - intros H. unfold normalize, send_normalize. simpl. unfold _isNumber_normalize.
    destruct x; try discriminate H; simpl.
    + destruct (float_of_Z n) as [f | e | w] eqn:E; simpl.
      * exists (VFloat f). split; reflexivity.
      * exists (VInt n). split; [reflexivity |]. simpl. rewrite E. reflexivity.
      * exfalso. unfold float_of_Z in E.
        destruct (binary_normalize prec emax n 0 false); discriminate E.
    + exists (VFloat f). split; reflexivity.
  - intros H. destruct x; try discriminate H. reflexivity.
Qed.

(** C7.  `isNumberOrNone` accepts the integer 3 by its type, and its
    `normalize` raises on it, as on every value but `None`: the method calls
    the function `_isNumber.normalize` with one argument where it takes
    two. *)
Theorem isNumberOrNone_normalize_raises (x : value) :
  (is_None x = false -> normalize isNumberOrNone x = Raise TypeError)
  /\ test isNumberOrNone (VInt 3) = Ret VTrue
  /\ normalize isNumberOrNone (VInt 3) = Raise TypeError.
Proof.
  split; [| split; reflexivity].
  intros H. unfold normalize, send_normalize. simpl.
  unfold _isNumberOrNone_normalize. rewrite H. reflexivity.
Qed.

Lemma isNumberOrNone_normalize_raises_witness :
  normalize isNumberOrNone (VFloat 2.5) = Raise TypeError.
Proof.
  apply (proj1 (isNumberOrNone_normalize_raises (VFloat 2.5))). reflexivity.
Defined.

(** ** `matchesPattern` *)

(** C8.  No `matchesPattern` validator can be constructed: the module never
    binds the name `re`, and `matchesPattern(pattern)` raises `NameError`
    before it compiles anything. *)
Theorem matchesPattern_construct_raises (pattern : value) :
  load_global "re" = Raise NameError
  /\ construct matchesPattern [pattern] [] = Raise NameError
  /\ py_call (VClass matchesPattern) pattern = Raise NameError.
Proof. repeat split; reflexivity. Qed.

(** ** Instances as the constructors leave them *)

Lemma lookup_setattr (d : dict) (name k : string) (v : value) :
  lookup (setattr d name v) k
  = if String.eqb k name then Some v else lookup d k.
Proof.
  induction d as [| [k' w] d IH]; simpl.
  - reflexivity.
  - destruct (String.eqb_spec name k') as [-> | N]; simpl.
    + destruct (String.eqb k k'); reflexivity.
    + destruct (String.eqb_spec k k') as [-> | N'].
      * destruct (String.eqb_spec k' name) as [-> | _];
          [exfalso; apply N; reflexivity | reflexivity].
      * exact IH.
Qed.

(** The optional name of a validator changes no other attribute. *)
Lemma getattr_set_name (c : cls) (d : dict) (name : value) (k : string) :
  String.eqb k "_str" = false ->
  getattr (VInst c (set_name d name)) k = getattr (VInst c d) k.
Proof.
  intros H. unfold getattr, set_name.
  destruct (truthy name); [| reflexivity].
  rewrite lookup_setattr, H. reflexivity.
Qed.

Lemma construct_NoneOr (E name : value) :
  construct NoneOr [E; name] []
  = Ret (VInst NoneOr (set_name [("_elemTest", E)] name)).
Proof. reflexivity. Qed.

Lemma construct_SequenceOf (E name emptyOK NoneOK lo hi : value) :
  construct SequenceOf [E; name; emptyOK; NoneOK; lo; hi] []
  = Ret (VInst SequenceOf
           (set_name [("_elemTest", E); ("_emptyOK", emptyOK);
                      ("_NoneOK", NoneOK); ("_lo", lo); ("_hi", hi)] name)).
Proof. reflexivity. Qed.

Lemma construct_EitherOr (tests name : value) :
  construct EitherOr [tests; name] []
  = Ret (VInst EitherOr
           (set_name
              [("_tests", if negb (isSeqType tests) then VTuple [tests] else tests)]
              name)).
Proof. reflexivity. Qed.

Lemma test_NoneOr (d : dict) (x : value) :
  test (VInst NoneOr d) x
  = NoneOr_test (call_attr (VInst NoneOr d) "_elemTest") (VInst NoneOr d) x.
Proof. reflexivity. Qed.

Lemma test_SequenceOf (d : dict) (x : value) :
  test (VInst SequenceOf d) x
  = SequenceOf_test (call_attr (VInst SequenceOf d) "_elemTest")
      (VInst SequenceOf d) x.
Proof. reflexivity. Qed.

Lemma test_EitherOr (d : dict) (x : value) :
  test (VInst EitherOr d) x
  = EitherOr_test (calls_attr (VInst EitherOr d) "_tests") (VInst EitherOr d) x.
Proof. reflexivity. Qed.


(** ** The sentinel `inherit` *)



(** ** `SequenceOf` *)

Lemma nonempty_sequence_ne (x : value) :
  isSeqType x = true -> elements x <> [] ->
  py_eq x (VList []) || py_eq x (VTuple []) = false.
Proof.
  intros S N. destruct x; try discriminate S; simpl in N;
    destruct xs; try (exfalso; apply N; reflexivity); reflexivity.
Qed.

(** On a sequence with elements and integer bounds, the test is the loop over
    the elements when the length lies within the bounds, and `False`
    otherwise. *)
Lemma SequenceOf_test_nonempty (elemTest : value -> result value)
  (self x : value) (lo hi : Z) :
  isSeqType x = true -> elements x <> [] ->
  getattr self "_lo" = Ret (VInt lo) ->
  getattr self "_hi" = Ret (VInt hi) ->
  SequenceOf_test elemTest self x
  = if (lo <=? Z.of_nat (List.length (elements x)))
       && (Z.of_nat (List.length (elements x)) <=? hi)
    then all_pass elemTest (elements x)
    else Ret VFalse.
Proof.
  intros S N Hlo Hhi. unfold SequenceOf_test.
  rewrite S, (nonempty_sequence_ne x S N). cbn [negb].
  rewrite Hlo. cbn [bind].
  assert (L : py_len x = Ret (Z.of_nat (List.length (elements x)))).
  { destruct x; try discriminate S; reflexivity. }
  rewrite L. cbn [bind].
  change (py_le (VInt lo) (VInt (Z.of_nat (List.length (elements x)))))
    with (@Ret bool (lo <=? Z.of_nat (List.length (elements x)))).
  cbn [bind].
  destruct (lo <=? Z.of_nat (List.length (elements x))); cbn [andb bind].
  - rewrite Hhi. cbn [bind].
    change (py_le (VInt (Z.of_nat (List.length (elements x)))) (VInt hi))
      with (@Ret bool (Z.of_nat (List.length (elements x)) <=? hi)).
    cbn [bind].
    destruct (Z.of_nat (List.length (elements x)) <=? hi); reflexivity.
  - reflexivity.
Qed.

(** A length outside the bounds: the test returned `False`, and the bounds
    do not hold. *)
Ltac out_of_bounds :=
  let H := fresh "H" in
  split;
  [ intros H; apply accepted_Ret in H; discriminate H
  | intros [H _]; lia ].

(** C4.  `SequenceOf(E, name, emptyOK, NoneOK, lo, hi).test(x)`: a value that
    is neither a sequence nor `None` gives `False`; `None` gives `NoneOK`; an
    empty sequence gives `emptyOK`, whatever the bounds; a sequence with
    elements is accepted exactly when its length lies within the bounds and
    the call of `E` accepts every element.  With `isNumber`, `emptyOK=False`,
    `lo=2`, `hi=2`: `[]` and `None` give a result equal to `False`, `[1,2]`
    gives `True`, `[1,2,3]` gives `False`. *)
Theorem SequenceOf_test_spec (E name emptyOK NoneOK : value) (lo hi : Z) :
  (exists V,
      construct SequenceOf [E; name; emptyOK; NoneOK; VInt lo; VInt hi] []
      = Ret V
      /\ (forall x, isSeqType x = false -> is_None x = false ->
                    test V x = Ret VFalse)
      /\ test V VNone = Ret NoneOK
      /\ (forall x, isSeqType x = true -> elements x = [] ->
                    test V x = Ret emptyOK)
      /\ (forall x, isSeqType x = true -> elements x <> [] ->
                    (accepted (test V x) <->
                     lo <= Z.of_nat (List.length (elements x)) <= hi
                     /\ Forall (fun e => accepted (py_call E e)) (elements x))))
  /\ (exists V,
        construct SequenceOf [isNumber]
          [("emptyOK", VFalse); ("lo", VInt 2); ("hi", VInt 2)] = Ret V
        /\ result_eq (test V (VList [])) VFalse
        /\ result_eq (test V (VList [VInt 1; VInt 2])) VTrue
        /\ result_eq (test V (VList [VInt 1; VInt 2; VInt 3])) VFalse
        /\ result_eq (test V VNone) VFalse).
Proof.
  split.
  - eexists. split; [apply construct_SequenceOf |].
    split; [| split; [| split]].
    + intros x S N. rewrite test_SequenceOf. unfold SequenceOf_test.
      rewrite S, N. reflexivity.
    + rewrite test_SequenceOf. unfold SequenceOf_test. simpl isSeqType.
      simpl is_None. cbv iota.
      rewrite getattr_set_name by reflexivity. reflexivity.
    + intros x S N. rewrite test_SequenceOf. unfold SequenceOf_test.
      rewrite S. simpl negb. cbv iota.
      destruct x; try discriminate S; simpl in N; subst xs; simpl orb; cbv iota;
        rewrite getattr_set_name by reflexivity; reflexivity.
    + intros x S N. rewrite test_SequenceOf.
      rewrite (SequenceOf_test_nonempty _ _ x lo hi S N)
        by (rewrite getattr_set_name by reflexivity; reflexivity).
      rewrite (all_pass_ext _ (py_call E)).
      2:{ intros e. unfold call_attr.
          rewrite getattr_set_name by reflexivity. reflexivity. }
      set (n := Z.of_nat (List.length (elements x))).
      destruct (Z.leb_spec lo n) as [Hlo | Hlo];
        destruct (Z.leb_spec n hi) as [Hhi | Hhi]; cbn [andb];
        try out_of_bounds.
      rewrite all_pass_accepted. split.
      * intros H. split; [lia | exact H].
      * intros [_ H]. exact H.
  - eexists. split; [reflexivity |].
    repeat split; (eexists; split; reflexivity).
Qed.

Lemma SequenceOf_test_spec_witness :
  accepted (test isXYCoord (VTuple [VFloat 1.5; VStr "2"]))
  /\ test isXYCoord (VStr "12") = Ret VFalse.
Proof.
  destruct (SequenceOf_test_spec isNumber VNone (VInt 0) (VInt 0) 2 2)
    as [[V [C [Hother [_ [_ Hseq]]]]] _].
  injection C as <-.
  split.
  - apply (Hseq (VTuple [VFloat 1.5; VStr "2"])).
    + reflexivity.
    + discriminate.
    + split; [simpl; lia |].
      repeat constructor; (eexists; split; reflexivity).
  - apply Hother; reflexivity.
Defined.

(** ** `OneOf` *)



(** ** The exported instances return on every input *)

Section Returning.

Variable elemTest : value -> result value.
Hypothesis elemTest_returns : forall e, returns (elemTest e).

Lemma all_pass_returns (xs : list value) : returns (all_pass elemTest xs).
Proof.
  induction xs as [| e xs IH]; simpl.
  - exists VTrue. reflexivity.
  - destruct (elemTest_returns e) as [r E]. rewrite E. simpl.
    destruct (truthy r); simpl; [exact IH | exists VFalse; reflexivity].
Qed.

Lemma SequenceOf_test_returns (self x a b : value) (lo hi : Z) :
  getattr self "_NoneOK" = Ret a ->
  getattr self "_emptyOK" = Ret b ->
  getattr self "_lo" = Ret (VInt lo) ->
  getattr self "_hi" = Ret (VInt hi) ->
  returns (SequenceOf_test elemTest self x).
Proof.
  intros Ha Hb Hlo Hhi.
  destruct (isSeqType x) eqn:S.
  - destruct (elements x) as [| e es] eqn:N.
    + unfold SequenceOf_test. rewrite S. cbn [negb].
      destruct x; try discriminate S; simpl in N; subst xs; cbn [py_eq];
        simpl orb; cbv iota; rewrite Hb; exists b; reflexivity.
    + rewrite (SequenceOf_test_nonempty elemTest self x lo hi S); try assumption.
      * destruct ((lo <=? Z.of_nat (List.length (elements x)))
                  && (Z.of_nat (List.length (elements x)) <=? hi)).
        -- apply all_pass_returns.
        -- exists VFalse. reflexivity.
      * rewrite N. discriminate.
  - unfold SequenceOf_test. rewrite S. cbn [negb].
    destruct (is_None x).
    + rewrite Ha. exists a. reflexivity.
    + exists VFalse. reflexivity.
Qed.

Lemma NoneOr_test_returns (self x : value) :
  returns (NoneOr_test elemTest self x).
Proof.
  unfold NoneOr_test. destruct (is_None x).
  - exists VTrue. reflexivity.
  - apply elemTest_returns.
Qed.

End Returning.

Lemma first_pass_returns (ts : list (value -> result value)) (x : value) :
  Forall (fun t => returns (t x)) ts -> returns (first_pass ts x).
Proof.
  induction 1 as [| t ts [r E] _ IH]; simpl.
  - exists VFalse. reflexivity.
  - rewrite E. simpl. destruct (truthy r); [exists VTrue; reflexivity | exact IH].
Qed.

Lemma is_bool_returns (r : result value) : is_bool r -> returns r.
Proof. intros [b E]. exists (VBool b). exact E. Qed.

(** A result that no branching stands before. *)
Ltac evaluated := solve [eexists; reflexivity].

(** The test of a [SequenceOf] or [NoneOr] instance [V], read as the class
    method applied to the test of the child [child]. *)
Ltac as_SequenceOf child V x :=
  change (returns (SequenceOf_test (test child) V x));
  eapply SequenceOf_test_returns;
  [ auto with returns | reflexivity | reflexivity | reflexivity | reflexivity ].

Ltac as_NoneOr child V x :=
  change (returns (NoneOr_test (test child) V x));
  apply NoneOr_test_returns; auto with returns.

Ltac none_or_else V x :=
  change (returns (if is_None x then Ret VTrue else test V x));
  destruct (is_None x); [ evaluated | auto with returns ].

Create HintDb returns.

Lemma isNumber_returns (x : value) : returns (test isNumber x).
Proof. apply is_bool_returns, (primitive_tests_total x). Qed.

Lemma isInt_returns (x : value) : returns (test isInt x).
Proof. apply is_bool_returns, (primitive_tests_total x). Qed.

Lemma isBoolean_returns (x : value) : returns (test isBoolean x).
Proof. apply is_bool_returns, (primitive_tests_total x). Qed.

Lemma isString_returns (x : value) : returns (test isString x).
Proof. apply is_bool_returns, (primitive_tests_total x). Qed.

Lemma isColor_returns (x : value) : returns (test isColor x).
Proof. evaluated. Qed.

Lemma isCallable_returns (x : value) : returns (test isCallable x).
Proof. evaluated. Qed.

#[local] Hint Resolve isNumber_returns isInt_returns isBoolean_returns
  isString_returns isColor_returns isCallable_returns : returns.

Lemma isNumberOrNone_returns (x : value) : returns (test isNumberOrNone x).
Proof. none_or_else isNumber x. Qed.

Lemma isNoneOrString_returns (x : value) : returns (test isNoneOrString x).
Proof. as_NoneOr isString isNoneOrString x. Qed.

Lemma isStringOrCallable_returns (x : value) :
  returns (test isStringOrCallable x).
Proof.
  change (returns (first_pass [test isString; test isCallable] x)).
  apply first_pass_returns. repeat apply Forall_cons; auto with returns.
Qed.

Lemma isListOfNumbers_returns (x : value) : returns (test isListOfNumbers x).
Proof. as_SequenceOf isNumber isListOfNumbers x. Qed.

Lemma isListOfStrings_returns (x : value) : returns (test isListOfStrings x).
Proof. as_SequenceOf isString isListOfStrings x. Qed.

#[local] Hint Resolve isNumberOrNone_returns isNoneOrString_returns
  isStringOrCallable_returns isListOfNumbers_returns isListOfStrings_returns
  : returns.

Lemma isTransform_returns (x : value) : returns (test isTransform x).
Proof.
  unfold test, send_test, send_test_via. simpl.
  unfold _isTransform_test. destruct (isSeqType x) eqn:S; [| evaluated].
  assert (L : py_len x = Ret (Z.of_nat (List.length (elements x)))).
  { destruct x; try discriminate S; reflexivity. }
  rewrite L. simpl.
  destruct (Z.of_nat (List.length (elements x)) =? 6); [| evaluated].
  apply all_pass_returns. exact isNumber_returns.
Qed.

(** The instances the module exports never raise from `test`: each returns
    on every value, but for `isCodec` on text and `isNormalDate`, whose
    answer is computed outside the file. *)
Lemma exported_tests_return (x : value) :
  Forall (fun V => returns (test V x) \/ exists w, test V x = Outside w)
    exported.
Proof.
  unfold exported. repeat (apply Forall_cons); try apply Forall_nil.
  (* isAuto, isBoolean, isString *)
  - left. unfold test, send_test, send_test_via. simpl.
    unfold Auto_test. simpl. destruct (same x (VClass Auto)); evaluated.
  - left. auto with returns.
  - left. auto with returns.
  (* isCodec *)
  - unfold test, send_test, send_test_via. simpl. unfold _isCodec_test.
    destruct (isStrType x); simpl; [right | left]; evaluated.
  (* isNumber, isInt, isNoneOrInt, isNumberOrNone, isTextAnchor *)
  - left. auto with returns.
  - left. auto with returns.
  - left. as_NoneOr isInt isNoneOrInt x.
  - left. auto with returns.
  - left. evaluated.
  (* isListOfNumbers, isListOfNumbersOrNone, isListOfShapes *)
  - left. auto with returns.
  - left. none_or_else isListOfNumbers x.
  - left. unfold test, send_test, send_test_via. simpl.
    unfold _isListOfShapes_test. destruct (isSeqType x); evaluated.
  (* isListOfStrings, isListOfStringsOrNone, isTransform *)
  - left. auto with returns.
  - left. none_or_else isListOfStrings x.
  - left. apply isTransform_returns.
  (* isColor, isListOfColors, isColorOrNone *)
  - left. auto with returns.
  - left. as_SequenceOf isColor isListOfColors x.
  - left. none_or_else isColor x.
  (* isValidChild, isValidChildOrNone, isAnything, isNothing *)
  - left. evaluated.
  - left. evaluated.
  - left. evaluated.
  - left. evaluated.
  (* isXYCoord, isBoxAnchor, isNoneOrString *)
  - left. as_SequenceOf isNumber isXYCoord x.
  - left. evaluated.
  - left. auto with returns.
  (* the three sequences of optional values *)
  - left. as_SequenceOf isNoneOrString isNoneOrListOfNoneOrStrings x.
  - left. as_SequenceOf isNoneOrString isListOfNoneOrString x.
  - left. as_SequenceOf isNumberOrNone isNoneOrListOfNoneOrNumbers x.
  (* isCallable, isStringOrCallable and its two optional forms *)
  - left. auto with returns.
  - left. auto with returns.
  - left. as_NoneOr isStringOrCallable isStringOrCallableOrNone x.
  - left. as_NoneOr isString isStringOrNone x.
  (* isNormalDate *)
  - unfold test, send_test, send_test_via. simpl. unfold _isNormalDate_test.
    simpl. destruct (is_None x); simpl; [left | right]; evaluated.
Qed.

(** C1.  `test` does not return on every input of every validator: for any
    bounds, `isNumberInRange(min, max).test(None)` raises `TypeError`, which
    the handler for `ValueError` lets through; so do the call of the
    validator and its test of an empty list. *)
Theorem isNumberInRange_test_raises (mn mx : value) :
  exists V,
    construct isNumberInRange [mn; mx] [] = Ret V
    /\ instance_of V Validator = true
    /\ test V VNone = Raise TypeError
    /\ py_call V VNone = Raise TypeError
    /\ test V (VList []) = Raise TypeError.
Proof.
  eexists. split; [reflexivity |]. repeat split; reflexivity.
Qed.

(* ================================================================== *)
(** * Further properties of the module *)

(** ** Helpers *)

Lemma py_call_validator (c : cls) (d : dict) (x : value) :
  issubclass c Validator = true ->
  py_call (VInst c d) x = test (VInst c d) x.
Proof.
  intros H. rewrite py_call_inst, (resolve___call__ c H). reflexivity.
Qed.


Lemma digit_is_no_letter (c : ascii) :
  is_digit c = true ->
  Ascii.eqb (lower_char c) "i" = false /\ Ascii.eqb (lower_char c) "n" = false.
Proof.
  destruct c as [[] [] [] [] [] [] [] []]; intros H;
    solve [discriminate H | split; reflexivity].
Qed.

Lemma span_digits_all (l : list ascii) :
  forallb is_digit l = true -> span_digits l = (l, []).
Proof.
  induction l as [| c l IH]; simpl; intros H.
  - reflexivity.
  - apply andb_prop in H. destruct H as [Hc Hl].
    rewrite Hc, (IH Hl). reflexivity.
Qed.

Lemma digits_are_no_word (body : list ascii) (w : string) :
  all_digits body = true ->
  w = "inf" \/ w = "infinity" \/ w = "nan" ->
  text_is body w = false.
Proof.
  intros H W. destruct body as [| c rest]; [discriminate H |].
  simpl in H. apply andb_prop in H. destruct H as [Hc _].
  destruct (digit_is_no_letter c Hc) as [Hi Hn].
  unfold text_is. simpl.
  destruct W as [-> | [-> | ->]]; simpl; rewrite ?Hi, ?Hn; reflexivity.
Qed.

(** Text that `int` reads, `float` reads too. *)
Lemma parse_int_float (s : string) (n : Z) :
  parse_int s = Some n -> exists f, parse_float s = Some f.
Proof.
  unfold parse_int, parse_float.
  destruct (underscores_ok Ascii.zero (strip (list_ascii_of_string s)));
    [| discriminate].
  destruct (parse_sign (drop_underscores (strip (list_ascii_of_string s))))
    as [neg body].
  destruct (all_digits body) eqn:D; [| discriminate].
  intros _.
  rewrite !(digits_are_no_word body) by auto. cbn [orb].
  destruct body as [| c rest]; [discriminate D |].
  simpl in D. rewrite (span_digits_all (c :: rest) D).
  cbn [app]. eexists. reflexivity.
Qed.


Lemma float_of_Z_inside (n : Z) (w : string) : float_of_Z n <> Outside w.
Proof.
  unfold float_of_Z. destruct (binary_normalize prec emax n 0 false); discriminate.
Qed.

(** ** What the primitive validators accept *)



(** X4.  `isBoolean.test` accepts the values equal to 0 or to 1 and the text
    that reads YES, TRUE, NO or FALSE in any case, and nothing else. *)
Theorem isBoolean_accepts (x : value) :
  test isBoolean x
  = Ret (VBool (in_0_1 x
                || match x with
                   | VStr s => existsb (String.eqb (str_upper s)) boolean_words
                   | _ => false
                   end)).
Proof.
  unfold test, send_test, send_test_via. simpl. unfold _isBoolean_test.
  rewrite contains_0_1.
  destruct x; simpl type_in_int_bool; cbv iota;
    try (rewrite orb_false_r; reflexivity);
    unfold send_normalizeTest, Validator_normalizeTest, send_normalize;
    simpl; unfold _isBoolean_normalize; rewrite contains_0_1;
    try reflexivity.
  - destruct (in_0_1 (VFloat f)); reflexivity.
  - simpl.
    destruct (String.eqb (str_upper s) "YES"),
             (String.eqb (str_upper s) "TRUE"),
             (String.eqb (str_upper s) "NO"),
             (String.eqb (str_upper s) "FALSE"); reflexivity.
Qed.

(** ** `normalize` and `test` of the primitive validators *)

Lemma normalizeTest_true_iff (V x : value) :
  instance_of V Validator = true ->
  (send_normalizeTest V x = Ret VTrue <-> returns (send_normalize V x)).
Proof.
  intros H. destruct V as [| | | | | | | | c d]; try discriminate H.
  simpl in H. unfold send_normalizeTest. simpl class_of. cbv iota.
  rewrite (resolve_normalizeTest c H). unfold Validator_normalizeTest.
  destruct (send_normalize (VInst c d) x) as [v | e | w]; simpl.
  - split; [intros _; exists v; reflexivity | reflexivity].
  - split; [intros E; discriminate E | intros [v E]; discriminate E].
  - split; [intros E; discriminate E | intros [v E]; discriminate E].
Qed.

(** X5.  What the `normalize` of `isBoolean`, `isNumber` or `isInt` returns,
    it returns again when applied to its own result: a normalized value is
    in normal form. *)
Theorem normalize_result_is_fixed (x y : value) :
  (normalize isBoolean x = Ret y -> normalize isBoolean y = Ret y)
  /\ (normalize isNumber x = Ret y -> normalize isNumber y = Ret y)
  /\ (normalize isInt x = Ret y -> normalize isInt y = Ret y).
Proof.
  split; [| split].
  - unfold normalize at 1. unfold send_normalize. simpl.
    unfold _isBoolean_normalize. rewrite contains_0_1.
    destruct (in_0_1 x) eqn:H; simpl.
    + intros E. injection E as <-. apply isBoolean_normalize_0_1. exact H.
    + destruct x; simpl; try discriminate.
      destruct (String.eqb (str_upper s) "YES" || (String.eqb (str_upper s) "TRUE" || false));
        simpl; [intros E; injection E as <-; reflexivity |].
      destruct (String.eqb (str_upper s) "NO" || (String.eqb (str_upper s) "FALSE" || false));
        simpl; [intros E; injection E as <-; reflexivity | discriminate].
  - unfold normalize, send_normalize. simpl. unfold _isNumber_normalize.
    destruct x; simpl; try discriminate.
    + intros E. injection E as <-. reflexivity.
    + destruct (float_of_Z n) as [f | e | w] eqn:F; simpl; intros E;
        try discriminate; injection E as <-; simpl.
      * reflexivity.
      * rewrite F. reflexivity.
    + intros E. injection E as <-. reflexivity.
    + destruct (parse_float s) eqn:F; simpl.
      * intros E. injection E as <-. reflexivity.
      * destruct (parse_int s) eqn:I; [| discriminate].
        destruct (parse_int_float s z I) as [f F']. congruence.
  - unfold normalize, send_normalize. simpl. unfold _isInt_normalize.
    destruct x; simpl; try discriminate.
    + intros E. injection E as <-. reflexivity.
    + intros E. injection E as <-. reflexivity.
    + destruct (Z_of_float f) as [n | e | w]; simpl; intros E;
        try discriminate; injection E as <-; reflexivity.
    + destruct (parse_int s); intros E; try discriminate.
      injection E as <-. reflexivity.
Qed.

Lemma normalize_result_is_fixed_witness :
  normalize isBoolean (VStr "yes") = Ret VTrue
  /\ normalize isBoolean VTrue = Ret VTrue
  /\ normalize isNumber (VStr " 2.5 ") = Ret (VFloat 2.5)
  /\ normalize isNumber (VFloat 2.5) = Ret (VFloat 2.5)
  /\ normalize isInt (VFloat 2.5) = Ret (VInt 2)
  /\ normalize isInt (VInt 2) = Ret (VInt 2).
Proof.
  assert (B : normalize isBoolean (VStr "yes") = Ret VTrue) by reflexivity.
  assert (N : normalize isNumber (VStr " 2.5 ") = Ret (VFloat 2.5)) by reflexivity.
  assert (I : normalize isInt (VFloat 2.5) = Ret (VInt 2)) by reflexivity.
  split; [exact B |]. split.
  { exact (proj1 (normalize_result_is_fixed (VStr "yes") VTrue) B). }
  split; [exact N |]. split.
  { exact (proj1 (proj2 (normalize_result_is_fixed (VStr " 2.5 ") (VFloat 2.5))) N). }
  split; [exact I |].
  exact (proj2 (proj2 (normalize_result_is_fixed (VFloat 2.5) (VInt 2))) I).
Defined.

(** X6.  `isNumber` and `isBoolean` accept a value exactly when their
    `normalize` returns on it.  `isInt` is stricter than its `normalize`:
    what it accepts `normalize` converts, but `normalize` also converts
    booleans, which `test` rejects. *)
Theorem test_agrees_with_normalize (x : value) :
  (test isNumber x = Ret VTrue <-> returns (normalize isNumber x))
  /\ (test isBoolean x = Ret VTrue <-> returns (normalize isBoolean x))
  /\ (test isInt x = Ret VTrue -> returns (normalize isInt x))
  /\ (forall b, returns (normalize isInt (VBool b))
                /\ test isInt (VBool b) = Ret VFalse).
Proof.
  split; [| split; [| split]].
  - unfold test, send_test, send_test_via. simpl. unfold _isNumber_test.
    destruct (type_in_NumberTypes x) eqn:T.
    + split; [intros _ | reflexivity].
      unfold normalize, send_normalize. simpl. unfold _isNumber_normalize.
      destruct x; try discriminate T; simpl.
      * destruct (float_of_Z n) as [f | e | w] eqn:F; simpl.
        -- eexists. reflexivity.
        -- eexists. reflexivity.
        -- destruct (float_of_Z_inside n w F).
      * eexists. reflexivity.
    + apply (normalizeTest_true_iff isNumber x). reflexivity.
  - unfold test, send_test, send_test_via. simpl. unfold _isBoolean_test.
    rewrite contains_0_1.
    destruct (type_in_int_bool x) eqn:T.
    + unfold normalize, send_normalize. simpl. unfold _isBoolean_normalize.
      rewrite contains_0_1. simpl.
      destruct (in_0_1 x); simpl.
      * split; [intros _; eexists; reflexivity | reflexivity].
      * destruct x; try discriminate T; simpl;
          (split; [intros E; discriminate E | intros [v E]; discriminate E]).
    + apply (normalizeTest_true_iff isBoolean x). reflexivity.
  - unfold test, send_test, send_test_via. simpl. unfold _isInt_test.
    destruct (negb (isStrType x || type_is_int x)).
    + intros E. discriminate E.
    + apply (normalizeTest_true_iff isInt x). reflexivity.
  - intros b. split; [eexists |]; reflexivity.
Qed.

Lemma test_agrees_with_normalize_witness :
  returns (normalize isNumber (VStr "1e3"))
  /\ test isBoolean (VStr "No") = Ret VTrue.
Proof.
  split.
  - apply (proj1 (test_agrees_with_normalize (VStr "1e3"))). reflexivity.
  - apply (proj1 (proj2 (test_agrees_with_normalize (VStr "No")))).
    eexists. reflexivity.
Defined.

(** ** `isNumberInRange` *)



(** ** The combinators *)

Lemma construct_AutoOr (E name : value) :
  construct AutoOr [E; name] []
  = Ret (VInst AutoOr (set_name [("_elemTest", E)] name)).
Proof. reflexivity. Qed.

Lemma test_AutoOr (d : dict) (x : value) :
  test (VInst AutoOr d) x
  = AutoOr_test (call_attr (VInst AutoOr d) "_elemTest") (VInst AutoOr d) x.
Proof. reflexivity. Qed.

Lemma call_attr_set_name (c : cls) (d : dict) (name : value) (k : string)
  (e : value) :
  String.eqb k "_str" = false ->
  call_attr (VInst c (set_name d name)) k e = call_attr (VInst c d) k e.
Proof.
  intros H. unfold call_attr. rewrite getattr_set_name by exact H. reflexivity.
Qed.

(** The loop of [EitherOr.test] accepts exactly when some member accepts and
    every member before it has returned a value read as false. *)
Lemma first_pass_calls_accepted (ms : list value) (x : value) :
  accepted (first_pass (map py_call ms) x)
  <-> exists pre m post,
        ms = (pre ++ m :: post)%list
        /\ Forall (fun u => declined (py_call u x)) pre
        /\ accepted (py_call m x).
Proof.
  induction ms as [| m0 ms IH]; simpl.
  - split.
    + intros H. apply accepted_Ret in H. discriminate H.
    + intros [pre [m [post [E _]]]]. destruct pre; discriminate E.
  - destruct (py_call m0 x) as [r | ex | w] eqn:C; simpl.
    + destruct (truthy r) eqn:T.
      * split; [intros _ | intros _; apply accepted_Ret; reflexivity].
        exists [], m0, ms. split; [reflexivity |]. split; [constructor |].
        rewrite C. apply accepted_Ret. exact T.
      * rewrite IH. split.
        -- intros [pre [m [post [E [D A]]]]].
           exists (m0 :: pre), m, post. split; [rewrite E; reflexivity |].
           split; [| exact A]. constructor; [| exact D].
           exists r. split; [exact C | exact T].
        -- intros [pre [m [post [E [D A]]]]].
           destruct pre as [| u pre]; simpl in E; injection E as -> ->.
           ++ rewrite C in A. apply accepted_Ret in A. congruence.
           ++ exists pre, m, post. split; [reflexivity |].
              split; [| exact A]. inversion D; assumption.
    + split.
      * intros H. destruct (not_accepted_Raise _ H).
      * intros [pre [m [post [E [D A]]]]].
        destruct pre as [| u pre]; simpl in E; injection E as -> ->.
        -- rewrite C in A. destruct (not_accepted_Raise _ A).
        -- inversion D as [| ? ? [v [Hv _]] _]. rewrite C in Hv. discriminate Hv.
    + split.
      * intros H. destruct (not_accepted_Outside _ H).
      * intros [pre [m [post [E [D A]]]]].
        destruct pre as [| u pre]; simpl in E; injection E as -> ->.
        -- rewrite C in A. destruct (not_accepted_Outside _ A).
        -- inversion D as [| ? ? [v [Hv _]] _]. rewrite C in Hv. discriminate Hv.
Qed.

Lemma EitherOr_test_unfold (tests name x : value) :
  test (VInst EitherOr
          (set_name
             [("_tests", if negb (isSeqType tests) then VTuple [tests] else tests)]
             name)) x
  = (ts <- calls_in (if negb (isSeqType tests) then VTuple [tests] else tests) ;;
     first_pass ts x).
Proof.
  rewrite test_EitherOr. unfold EitherOr_test, calls_attr.
  rewrite getattr_set_name by reflexivity. reflexivity.
Qed.

(** X8.  `EitherOr(tests).test(x)` tries the members of `tests` in order and
    stops at the first that accepts: it accepts exactly when some member
    accepts `x` and every member before it has returned a value read as
    false; members after it are not called.  What it returns is a boolean
    object.  A single validator given in place of a sequence counts as a
    sequence of one. *)
Theorem EitherOr_test_spec (tests name x : value) :
  exists V,
    construct EitherOr [tests; name] [] = Ret V
    /\ (forall ms,
          tests = VTuple ms \/ tests = VList ms ->
          (accepted (test V x)
           <-> exists pre m post,
                 ms = (pre ++ m :: post)%list
                 /\ Forall (fun u => declined (py_call u x)) pre
                 /\ accepted (py_call m x)))
    /\ (isSeqType tests = false ->
        (accepted (test V x) <-> accepted (py_call tests x)))
    /\ (forall v, test V x = Ret v -> exists b, v = VBool b).
Proof.
  eexists. split; [apply construct_EitherOr |].
  rewrite EitherOr_test_unfold. split; [| split].
  - intros ms [-> | ->]; simpl; apply first_pass_calls_accepted.
  - intros S. rewrite S. simpl.
    destruct (py_call tests x) as [r | ex | w]; simpl.
    + destruct (truthy r) eqn:T; rewrite !accepted_Ret; rewrite ?T;
        split; intros H; try reflexivity; discriminate H.
    + split; intros H; destruct (not_accepted_Raise _ H).
    + split; intros H; destruct (not_accepted_Outside _ H).
  - intros v H. apply bind_Ret in H. destruct H as [ts [_ H]].
    apply (first_pass_bool ts x v H).
Qed.

Lemma EitherOr_test_spec_witness :
  accepted (test (VInst EitherOr
                    [("_tests", VTuple [isString; isAnything;
                                        VInst isNumberInRange
                                          [("min", VInt 0); ("max", VInt 1)]])])
              VNone).
Proof.
  destruct (EitherOr_test_spec
              (VTuple [isString; isAnything;
                       VInst isNumberInRange [("min", VInt 0); ("max", VInt 1)]])
              VNone VNone) as [V [C [H _]]].
  injection C as <-.
  apply (H [isString; isAnything;
            VInst isNumberInRange [("min", VInt 0); ("max", VInt 1)]]).
  - left. reflexivity.
  - exists [isString], isAnything,
      [VInst isNumberInRange [("min", VInt 0); ("max", VInt 1)]].
    split; [reflexivity |]. split.
    + repeat constructor. eexists. split; reflexivity.
    + eexists. split; reflexivity.
Defined.

(** X9.  `NoneOr(E).test` accepts `None` whatever `E` does with it, and on
    any other value it is the call `E(x)` itself: the same value, the same
    exception. *)
Theorem NoneOr_test_spec (E name x : value) :
  exists V,
    construct NoneOr [E; name] [] = Ret V
    /\ test V VNone = Ret VTrue
    /\ (is_None x = false -> test V x = py_call E x)
    /\ (accepted (test V x) <-> is_None x = true \/ accepted (py_call E x)).
Proof.
  eexists. split; [apply construct_NoneOr |].
  rewrite !test_NoneOr. unfold NoneOr_test.
  rewrite !call_attr_set_name by reflexivity.
  change (call_attr (VInst NoneOr [("_elemTest", E)]) "_elemTest" x)
    with (py_call E x).
  split; [reflexivity |]. split.
  - intros H. rewrite H. reflexivity.
  - destruct (is_None x).
    + split; [intros _; left; reflexivity | intros _; apply accepted_Ret; reflexivity].
    + split; [intros H; right; exact H | intros [H | H]; [discriminate H | exact H]].
Qed.

Lemma NoneOr_test_spec_witness :
  test (VInst NoneOr [("_elemTest", isInt)]) (VStr "12") = Ret VTrue.
Proof.
  destruct (NoneOr_test_spec isInt VNone (VStr "12")) as [V [C [_ [H _]]]].
  injection C as <-.
  transitivity (py_call isInt (VStr "12")); [exact (H eq_refl) | reflexivity].
Defined.

(** X10.  The validators written out with `OrNone` in their name behave as
    `NoneOr` of their base validator: each returns on every value what
    `NoneOr(base).test` returns. *)
Theorem OrNone_validators_are_NoneOr (x : value) :
  (exists V, construct NoneOr [isNumber] [] = Ret V
             /\ test isNumberOrNone x = test V x)
  /\ (exists V, construct NoneOr [isListOfNumbers] [] = Ret V
                /\ test isListOfNumbersOrNone x = test V x)
  /\ (exists V, construct NoneOr [isListOfStrings] [] = Ret V
                /\ test isListOfStringsOrNone x = test V x)
  /\ (exists V, construct NoneOr [isColor] [] = Ret V
                /\ test isColorOrNone x = test V x)
  /\ (exists V, construct NoneOr [isValidChild] [] = Ret V
                /\ test isValidChildOrNone x = test V x).
Proof.
  repeat split; eexists; (split; [reflexivity |]); try reflexivity.
  rewrite test_NoneOr. unfold NoneOr_test.
  destruct x; reflexivity.
Qed.

(** X11.  `isAuto.test` accepts the class `Auto` and its instances, and
    nothing else.  `AutoOr(E).test` accepts those and otherwise is the call
    `E(x)`; although `AutoOr` is a subclass of `NoneOr`, it gives `None` no
    pass of its own. *)
Theorem AutoOr_test_spec (E name x : value) :
  exists V,
    construct AutoOr [E; name] [] = Ret V
    /\ test isAuto x = Ret (VBool (same x (VClass Auto) || instance_of x Auto))
    /\ test V x
       = (if same x (VClass Auto) || instance_of x Auto then Ret VTrue
          else py_call E x)
    /\ test V VNone = py_call E VNone.
Proof.
  eexists. split; [apply construct_AutoOr |].
  assert (A : call_isAuto x
              = Ret (VBool (same x (VClass Auto) || instance_of x Auto))).
  { unfold call_isAuto, Auto_test. simpl class_of. cbv iota.
    destruct (same x (VClass Auto)); reflexivity. }
  split; [exact A |].
  rewrite !test_AutoOr. unfold AutoOr_test.
  rewrite !call_attr_set_name by reflexivity.
  split.
  - rewrite A. simpl.
    destruct (same x (VClass Auto) || instance_of x Auto); reflexivity.
  - reflexivity.
Qed.

(** ** `OneOf` *)

(** X12.  The two usages the docstring of `OneOf` gives build the same
    validator: `OneOf((v, ...))` and `OneOf([v, ...])` are `OneOf(v, ...)`
    when `v` is no sequence.  `OneOf(())` accepts nothing. *)
Theorem OneOf_usages_agree (v : value) (vs : list value) :
  isSeqType v = false ->
  construct OneOf [VTuple (v :: vs)] [] = construct OneOf (v :: vs) []
  /\ construct OneOf [VList (v :: vs)] [] = construct OneOf (v :: vs) []
  /\ exists V, construct OneOf [VTuple []] [] = Ret V
               /\ forall x, test V x = Ret VFalse.
Proof.
  intros S. split; [| split].
  - unfold construct. simpl. unfold OneOf___init__. simpl. rewrite S.
    simpl. rewrite app_nil_r. reflexivity.
  - unfold construct. simpl. unfold OneOf___init__. simpl. rewrite S.
    simpl. rewrite app_nil_r. reflexivity.
  - eexists. split; [reflexivity |]. intros x. reflexivity.
Qed.

Lemma OneOf_usages_agree_witness :
  construct OneOf [VTuple [VStr "happy"; VStr "sad"]] []
  = construct OneOf [VStr "happy"; VStr "sad"] [].
Proof.
  apply (proj1 (OneOf_usages_agree (VStr "happy") [VStr "sad"] eq_refl)).
Defined.

(** ** `_isTransform` and `isXYCoord` *)

(** X13.  `isTransform.test` accepts exactly the lists and tuples of six
    elements that `isNumber` accepts one by one. *)
Theorem isTransform_accepts (x : value) :
  accepted (test isTransform x)
  <-> isSeqType x = true
      /\ List.length (elements x) = 6%nat
      /\ Forall (fun e => accepted (test isNumber e)) (elements x).
Proof.
  unfold test at 1. unfold send_test, send_test_via. simpl.
  unfold _isTransform_test.
  destruct (isSeqType x) eqn:S.
  - assert (L : py_len x = Ret (Z.of_nat (List.length (elements x)))).
    { destruct x; try discriminate S; reflexivity. }
    rewrite L. simpl.
    destruct (Z.eqb_spec (Z.of_nat (List.length (elements x))) 6) as [E | N].
    + change (all_pass call_isNumber (elements x))
        with (all_pass (test isNumber) (elements x)).
      rewrite all_pass_accepted. split.
      * intros H. split; [reflexivity |]. split; [lia | exact H].
      * intros [_ [_ H]]. exact H.
    + split.
      * intros H. apply accepted_Ret in H. discriminate H.
      * intros [_ [H _]]. lia.
  - split.
    + intros H. apply accepted_Ret in H. discriminate H.
    + intros [H _]. discriminate H.
Qed.

(** X14.  `isXYCoord.test` accepts exactly the lists and tuples of two
    elements that `isNumber` accepts; it rejects the empty sequence and
    `None`. *)
Theorem isXYCoord_accepts (x : value) :
  accepted (test isXYCoord x)
  <-> isSeqType x = true
      /\ exists a b, elements x = [a; b]
                     /\ accepted (test isNumber a)
                     /\ accepted (test isNumber b).
Proof.
  change (test isXYCoord x)
    with (SequenceOf_test (test isNumber) isXYCoord x).
  destruct (isSeqType x) eqn:S.
  - destruct (elements x) as [| a r] eqn:N.
    + unfold SequenceOf_test. rewrite S.
      destruct x; try discriminate S; simpl in N; subst xs; simpl.
      * split; [intros H; apply accepted_Ret in H; discriminate H
               | intros [_ [a [b [E _]]]]; discriminate E].
      * split; [intros H; apply accepted_Ret in H; discriminate H
               | intros [_ [a [b [E _]]]]; discriminate E].
    + rewrite (SequenceOf_test_nonempty _ isXYCoord x 2 2 S)
        by (try reflexivity; rewrite N; discriminate).
      rewrite N.
      destruct ((2 <=? Z.of_nat (List.length (a :: r)))
                && (Z.of_nat (List.length (a :: r)) <=? 2)) eqn:O.
      * apply andb_prop in O. destruct O as [O1 O2].
        apply Z.leb_le in O1, O2.
        assert (L : List.length r = 1%nat) by (simpl List.length in *; lia).
        destruct r as [| b [| c r]]; try discriminate L.
        rewrite all_pass_accepted. split.
        -- intros H. split; [reflexivity |]. exists a, b.
           inversion H as [| ? ? Ha H']. inversion H' as [| ? ? Hb _].
           split; [reflexivity | split; assumption].
        -- intros [_ [a' [b' [E [Ha Hb]]]]]. injection E as <- <-.
           repeat constructor; assumption.
      * split; [intros H; apply accepted_Ret in H; discriminate H |].
        intros [_ [a' [b' [E _]]]]. injection E as -> ->.
        discriminate O.
  - unfold SequenceOf_test. rewrite S. simpl.
    destruct (is_None x); simpl;
      (split; [intros H; apply accepted_Ret in H; discriminate H
              | intros [H _]; discriminate H]).
Qed.

(** ** `isInstanceOf` *)

Lemma py_isinstance_classes (x : value) (ks : list cls) :
  py_isinstance x (VTuple (map VClass ks)) = Ret (existsb (instance_of x) ks).
Proof.
  induction ks as [| k ks IH]; simpl.
  - reflexivity.
  - simpl in IH. destruct (instance_of x k); simpl; [reflexivity | exact IH].
Qed.

(** X15.  `isInstanceOf(K).test(x)` tells whether `x` is an instance of the
    class `K` or of a subclass of it, and with a tuple of classes whether it
    is an instance of one of them.  Built with no argument, the validator
    keeps `None` for its class and its `test` raises `TypeError` on every
    value. *)
Theorem isInstanceOf_test_spec (k : cls) (ks : list cls) (x : value) :
  (exists V, construct isInstanceOf [VClass k] [] = Ret V
             /\ test V x = Ret (VBool (instance_of x k)))
  /\ (exists V, construct isInstanceOf [VTuple (map VClass ks)] [] = Ret V
                /\ test V x = Ret (VBool (existsb (instance_of x) ks)))
  /\ (exists V, construct isInstanceOf [] [] = Ret V
                /\ test V x = Raise TypeError)
  /\ (forall c d, instance_of (VInst c d) k = issubclass c k).
Proof.
  split; [| split; [| split]].
  - eexists. split; reflexivity.
  - eexists. split; [reflexivity |].
    unfold test, send_test, send_test_via. simpl. unfold isInstanceOf_test.
    simpl getattr. cbn [bind]. rewrite py_isinstance_classes. reflexivity.
  - eexists. split; reflexivity.
  - reflexivity.
Qed.

(** ** The name of a validator *)

Lemma send_str_set_name (c : cls) (d : dict) (name : value) :
  issubclass c Validator = true ->
  lookup d "_str" = None ->
  send_str (VInst c (set_name d name))
  = Ret (if truthy name then name else VStr (class_name c)).
Proof.
  intros H N. unfold send_str. simpl class_of. cbv iota.
  assert (R : resolve c "__str__" = Some Validator)
    by (destruct c; try discriminate H; reflexivity).
  rewrite R. unfold Validator___str__, set_name.
  destruct (truthy name).
  - rewrite lookup_setattr. reflexivity.
  - rewrite N. reflexivity.
Qed.

(** X16.  The `name` given to `SequenceOf`, `EitherOr`, `NoneOr` or `AutoOr`
    is what `__str__` returns; with no name, or a name read as false such
    as the empty text, `__str__` returns the name of the class.  A validator
    of a class with no `__init__` is named after its class. *)
Theorem validator_name (E name : value) :
  (exists V, construct SequenceOf [E; name] [] = Ret V
             /\ send_str V = Ret (if truthy name then name else VStr "SequenceOf"))
  /\ (exists V, construct EitherOr [E; name] [] = Ret V
                /\ send_str V = Ret (if truthy name then name else VStr "EitherOr"))
  /\ (exists V, construct NoneOr [E; name] [] = Ret V
                /\ send_str V = Ret (if truthy name then name else VStr "NoneOr"))
  /\ (exists V, construct AutoOr [E; name] [] = Ret V
                /\ send_str V = Ret (if truthy name then name else VStr "AutoOr"))
  /\ (forall c, issubclass c Validator = true -> resolve c "__init__" = None ->
                exists V, construct c [] [] = Ret V
                          /\ send_str V = Ret (VStr (class_name c))).
Proof.
  split; [| split; [| split; [| split]]].
  - eexists. split; [reflexivity |].
    apply (send_str_set_name SequenceOf); reflexivity.
  - eexists. split; [apply construct_EitherOr |].
    apply (send_str_set_name EitherOr); reflexivity.
  - eexists. split; [apply construct_NoneOr |].
    apply (send_str_set_name NoneOr); reflexivity.
  - eexists. split; [apply construct_AutoOr |].
    apply (send_str_set_name AutoOr); reflexivity.
  - intros c H R. unfold construct. rewrite R. eexists. split; [reflexivity |].
    unfold send_str. simpl class_of. cbv iota.
    assert (S : resolve c "__str__" = Some Validator)
      by (destruct c; try discriminate H; reflexivity).
    rewrite S. reflexivity.
Qed.

Lemma validator_name_witness :
  send_str isNumber = Ret (VStr "_isNumber").
Proof.
  destruct (validator_name VNone VNone) as [_ [_ [_ [_ H]]]].
  destruct (H _isNumber eq_refl eq_refl) as [V [C S]].
  injection C as <-. exact S.
Defined.

(** X17.  The name is a label only: a `SequenceOf`, `EitherOr`, `NoneOr` or
    `AutoOr` validator built with a name tests every value as the one built
    without it. *)
Theorem name_changes_no_test
  (E name emptyOK NoneOK lo hi tests x : value) :
  (exists V W,
      construct SequenceOf [E; name; emptyOK; NoneOK; lo; hi] [] = Ret V
      /\ construct SequenceOf [E; VNone; emptyOK; NoneOK; lo; hi] [] = Ret W
      /\ test V x = test W x)
  /\ (exists V W,
        construct EitherOr [tests; name] [] = Ret V
        /\ construct EitherOr [tests] [] = Ret W
        /\ test V x = test W x)
  /\ (exists V W,
        construct NoneOr [E; name] [] = Ret V
        /\ construct NoneOr [E] [] = Ret W
        /\ test V x = test W x)
  /\ (exists V W,
        construct AutoOr [E; name] [] = Ret V
        /\ construct AutoOr [E] [] = Ret W
        /\ test V x = test W x).
Proof.
  split; [| split; [| split]]; eexists; eexists.
  - split; [apply construct_SequenceOf |]. split; [reflexivity |].
    unfold set_name. destruct (truthy name); reflexivity.
  - split; [apply construct_EitherOr |]. split; [reflexivity |].
    unfold set_name. destruct (truthy name); reflexivity.
  - split; [apply construct_NoneOr |]. split; [reflexivity |].
    unfold set_name. destruct (truthy name); reflexivity.
  - split; [apply construct_AutoOr |]. split; [reflexivity |].
    unfold set_name. destruct (truthy name); reflexivity.
Qed.

(** ** The defaults of `SequenceOf` *)

(** X18.  `SequenceOf(E)` with no further argument accepts the empty
    sequence and rejects `None`, returning the integers 1 and 0 that are the
    defaults of `emptyOK` and `NoneOK`; a sequence with elements, of length
    up to 0x7fffffff, is accepted exactly when `E` accepts every element. *)
Theorem SequenceOf_defaults (E x : value) :
  exists V,
    construct SequenceOf [E] [] = Ret V
    /\ test V (VList []) = Ret (VInt 1)
    /\ test V (VTuple []) = Ret (VInt 1)
    /\ test V VNone = Ret (VInt 0)
    /\ (isSeqType x = true -> elements x <> [] ->
        Z.of_nat (List.length (elements x)) <= 2147483647 ->
        (accepted (test V x)
         <-> Forall (fun e => accepted (py_call E e)) (elements x))).
Proof.
  eexists. split; [reflexivity |].
  split; [reflexivity |]. split; [reflexivity |]. split; [reflexivity |].
  intros Sq N L. rewrite test_SequenceOf.
  rewrite (SequenceOf_test_nonempty _ _ x 0 2147483647)
    by (try assumption; reflexivity).
  assert (B : (0 <=? Z.of_nat (List.length (elements x)))
              && (Z.of_nat (List.length (elements x)) <=? 2147483647) = true).
  { apply andb_true_intro. split; apply Z.leb_le; lia. }
  rewrite B, all_pass_accepted. reflexivity.
Qed.

Lemma SequenceOf_defaults_witness :
  accepted (test (VInst SequenceOf
                    [("_elemTest", isString); ("_emptyOK", VInt 1);
                     ("_NoneOK", VInt 0); ("_lo", VInt 0);
                     ("_hi", VInt 2147483647)])
              (VList [VStr "a"; VStr "b"])).
Proof.
  destruct (SequenceOf_defaults isString (VList [VStr "a"; VStr "b"]))
    as [V [C [_ [_ [_ H]]]]].
  injection C as <-.
  apply H.
  - reflexivity.
  - discriminate.
  - simpl. lia.
  - repeat constructor; (eexists; split; reflexivity).
Defined.

(** ** The exported validators *)

Lemma isAuto_returns (x : value) : returns (test isAuto x).
Proof.
  unfold test, send_test, send_test_via. simpl.
  unfold Auto_test. simpl. destruct (same x (VClass Auto)); evaluated.
Qed.

Lemma isNoneOrInt_returns (x : value) : returns (test isNoneOrInt x).
Proof. as_NoneOr isInt isNoneOrInt x. Qed.

Lemma isListOfNumbersOrNone_returns (x : value) :
  returns (test isListOfNumbersOrNone x).
Proof. none_or_else isListOfNumbers x. Qed.

Lemma isListOfStringsOrNone_returns (x : value) :
  returns (test isListOfStringsOrNone x).
Proof. none_or_else isListOfStrings x. Qed.

Lemma isListOfShapes_returns (x : value) : returns (test isListOfShapes x).
Proof.
  unfold test, send_test, send_test_via. simpl.
  unfold _isListOfShapes_test. destruct (isSeqType x); evaluated.
Qed.

Lemma isListOfColors_returns (x : value) : returns (test isListOfColors x).
Proof. as_SequenceOf isColor isListOfColors x. Qed.

Lemma isColorOrNone_returns (x : value) : returns (test isColorOrNone x).
Proof. none_or_else isColor x. Qed.

Lemma isXYCoord_returns (x : value) : returns (test isXYCoord x).
Proof. as_SequenceOf isNumber isXYCoord x. Qed.

Lemma isNoneOrListOfNoneOrStrings_returns (x : value) :
  returns (test isNoneOrListOfNoneOrStrings x).
Proof. as_SequenceOf isNoneOrString isNoneOrListOfNoneOrStrings x. Qed.

Lemma isListOfNoneOrString_returns (x : value) :
  returns (test isListOfNoneOrString x).
Proof. as_SequenceOf isNoneOrString isListOfNoneOrString x. Qed.

Lemma isNoneOrListOfNoneOrNumbers_returns (x : value) :
  returns (test isNoneOrListOfNoneOrNumbers x).
Proof. as_SequenceOf isNumberOrNone isNoneOrListOfNoneOrNumbers x. Qed.

Lemma isStringOrCallableOrNone_returns (x : value) :
  returns (test isStringOrCallableOrNone x).
Proof. as_NoneOr isStringOrCallable isStringOrCallableOrNone x. Qed.

Lemma isStringOrNone_returns (x : value) : returns (test isStringOrNone x).
Proof. as_NoneOr isString isStringOrNone x. Qed.

#[local] Hint Resolve isAuto_returns isNoneOrInt_returns
  isListOfNumbersOrNone_returns isListOfStringsOrNone_returns
  isListOfShapes_returns isListOfColors_returns isColorOrNone_returns
  isXYCoord_returns isNoneOrListOfNoneOrStrings_returns
  isListOfNoneOrString_returns isNoneOrListOfNoneOrNumbers_returns
  isStringOrCallableOrNone_returns isStringOrNone_returns isTransform_returns
  : returns.

Lemma exported_decided_members :
  exported_decided
  = [isAuto; isBoolean; isString; isNumber; isInt; isNoneOrInt;
     isNumberOrNone; isTextAnchor; isListOfNumbers; isListOfNumbersOrNone;
     isListOfShapes; isListOfStrings; isListOfStringsOrNone; isTransform;
     isColor; isListOfColors; isColorOrNone; isValidChild; isValidChildOrNone;
     isAnything; isNothing; isXYCoord; isBoxAnchor; isNoneOrString;
     isNoneOrListOfNoneOrStrings; isListOfNoneOrString;
     isNoneOrListOfNoneOrNumbers; isCallable; isStringOrCallable;
     isStringOrCallableOrNone; isStringOrNone].
Proof. reflexivity. Qed.

Lemma exported_decided_tests_return (x : value) :
  Forall (fun V => returns (test V x)) exported_decided.
Proof.
  rewrite exported_decided_members.
  repeat (apply Forall_cons; [first [solve [auto with returns] | evaluated] |]).
  apply Forall_nil.
Qed.

Lemma validator_returns (V x : value) :
  instance_of V Validator = true ->
  returns (test V x) ->
  returns (test V x) /\ returns (py_call V x).
Proof.
  intros IV R.
  destruct V as [| | | | | | | | c d]; try discriminate IV.
  split; [exact R |].
  rewrite (py_call_validator c d x IV). exact R.
Qed.

Lemma exported_decided_validators :
  Forall (fun V => instance_of V Validator = true) exported_decided.
Proof.
  rewrite exported_decided_members. repeat constructor.
Qed.

(** X1.  Every validator the module exports, `isCodec` and `isNormalDate`
    apart, returns a value on every input, from `test` and when called: none
    of them raises. *)
Theorem exported_validators_return (x : value) :
  Forall (fun V => returns (test V x) /\ returns (py_call V x))
    exported_decided.
Proof.
  apply Forall_impl
    with (P := fun V => instance_of V Validator = true /\ returns (test V x)).
  - intros V [IV R]. apply validator_returns; assumption.
  - apply Forall_and.
    + exact exported_decided_validators.
    + exact (exported_decided_tests_return x).
Qed.

(** ** Sequences of optional text *)

Lemma isNoneOrString_accepts (e : value) :
  accepted (test isNoneOrString e)
  <-> is_None e = true \/ isStrType e = true.
Proof.
  change (test isNoneOrString e)
    with (if is_None e then Ret VTrue else Ret (VBool (isStrType e))).
  destruct (is_None e).
  - split; [intros _; left; reflexivity | intros _; apply accepted_Ret; reflexivity].
  - rewrite accepted_Ret. simpl.
    split; [intros H; right; exact H | intros [H | H]; [discriminate H | exact H]].
Qed.

Lemma Forall_iff {A : Type} (P Q : A -> Prop) (l : list A) :
  (forall a, P a <-> Q a) -> (Forall P l <-> Forall Q l).
Proof.
  intros H. split; apply Forall_impl; intros a; apply H.
Qed.

(** X19.  `isNoneOrListOfNoneOrStrings` accepts `None` and the lists and
    tuples, empty or not, whose elements are each `None` or text, and
    nothing else; `isListOfNoneOrString` accepts the same sequences and
    rejects `None`.  (A sequence longer than 0x7fffffff would fail the
    default upper bound.) *)
Theorem sequences_of_optional_text (x : value) :
  Z.of_nat (List.length (elements x)) <= 2147483647 ->
  (accepted (test isNoneOrListOfNoneOrStrings x)
   <-> is_None x = true
       \/ (isSeqType x = true
           /\ Forall (fun e => is_None e = true \/ isStrType e = true)
                (elements x)))
  /\ (accepted (test isListOfNoneOrString x)
      <-> isSeqType x = true
          /\ Forall (fun e => is_None e = true \/ isStrType e = true)
               (elements x)).
Proof.
  intros L.
  assert (B : (0 <=? Z.of_nat (List.length (elements x)))
              && (Z.of_nat (List.length (elements x)) <=? 2147483647) = true).
  { apply andb_true_intro. split; apply Z.leb_le; lia. }
  change (test isNoneOrListOfNoneOrStrings x)
    with (SequenceOf_test (test isNoneOrString) isNoneOrListOfNoneOrStrings x).
  change (test isListOfNoneOrString x)
    with (SequenceOf_test (test isNoneOrString) isListOfNoneOrString x).
  destruct (isSeqType x) eqn:Sq.
  - assert (NN : is_None x = false) by (destruct x; try discriminate Sq; reflexivity).
    destruct (elements x) as [| a r] eqn:N.
    + unfold SequenceOf_test. rewrite Sq.
      destruct x; try discriminate Sq; simpl in N; subst xs; simpl;
        (split; (split; [intros _ | intros _; apply accepted_Ret; reflexivity]);
         [right |]; (split; [reflexivity | constructor])).
    + rewrite !(SequenceOf_test_nonempty _ _ x 0 2147483647 Sq)
        by (try reflexivity; rewrite N; discriminate).
      rewrite N, B, all_pass_accepted.
      rewrite (Forall_iff _ _ (a :: r) isNoneOrString_accepts).
      split; split.
      * intros H. right. split; [reflexivity | exact H].
      * intros [H | [_ H]]; [rewrite NN in H; discriminate H | exact H].
      * intros H. split; [reflexivity | exact H].
      * intros [_ H]. exact H.
  - unfold SequenceOf_test. rewrite Sq. simpl.
    destruct (is_None x); simpl; split; split;
      try (intros H; apply accepted_Ret in H; discriminate H);
      try (intros [H _]; discriminate H);
      try (intros _; left; reflexivity);
      try (intros _; apply accepted_Ret; reflexivity).
    intros [H | [H _]]; discriminate H.
Qed.

Lemma sequences_of_optional_text_witness :
  accepted (test isNoneOrListOfNoneOrStrings (VList [VStr "a"; VNone]))
  /\ ~ accepted (test isListOfNoneOrString VNone).
Proof.
  split.
  - apply (proj1 (sequences_of_optional_text (VList [VStr "a"; VNone])
                    ltac:(simpl; lia))).
    right. split; [reflexivity |].
    apply Forall_cons; [right; reflexivity |].
    apply Forall_cons; [left; reflexivity |].
    apply Forall_nil.
  - intros H.
    apply (proj2 (sequences_of_optional_text VNone ltac:(simpl; lia))) in H.
    destruct H as [H _]. discriminate H.
Defined.
